(** * FaceKeeper: the attendance ledger and the recognition session

    A shallow embedding of [database.py] (class [AttendanceDatabase]) and of
    [attendance.py] (class [AttendanceSystem]), with the properties of the
    recognition-to-attendance pipeline stated over it.

    What lies outside the two classes enters as data:
    - the SQLite engine is modelled by the two tables it holds and by the
      constraints of the [CREATE TABLE] statements in [create_tables];
    - [datetime.now()] is a [clock] value handed to every call that reads it;
    - the camera, the Haar cascade and the LBPH recognizer are the stream of
      frames they produce, each face already carrying the pair
      [(label, confidence)] returned by [recognizer.predict].
    Console output ([print]) is not modelled. *)

From Stdlib Require Import ZArith QArith String Ascii List Sorted Permutation Lia.
From stdpp Require Import base decidable option list gmap strings sorting.

Local Open Scope Z_scope.

(** ** SQLite as seen from [database.py] *)

(** The exception classes of [sqlite3] that the [except] clauses tell apart:
    [IntegrityError] (a constraint of the schema was violated) and every other
    subclass of [sqlite3.Error]; the one the model can raise by itself is
    [ProgrammingError], raised by any statement on a closed connection;
    [OperationalError] is what the storage raises when it fails under a
    usable connection (disk, lock), see [storage_fault]. *)
Inductive sqlite_error : Type :=
  | IntegrityError
  | ProgrammingError
  | OperationalError.

(** Outcome of a [try] body that runs one SQL statement. *)
Inductive result (A : Type) : Type :=
  | Ok (a : A)
  | Raise (e : sqlite_error).
Arguments Ok {A} a.
Arguments Raise {A} e.

(** The readings of the wall clock one call can take:
    [datetime.now().strftime("%Y-%m-%d")], [datetime.now().strftime("%H:%M:%S")]
    and SQLite's [CURRENT_TIMESTAMP]. *)
Record clock : Type := Clock {
  now_date : string;
  now_time : string;
  current_timestamp : string
}.

(** A row of table [users]. *)
Record user_row : Type := UserRow {
  u_id : Z;
  u_roll_number : string;
  u_name : string;
  u_created_at : string
}.

(** A row of table [attendance]. *)
Record attendance_row : Type := AttendanceRow {
  a_id : Z;
  a_user_id : Z;
  a_date : string;
  a_time : string;
  a_status : string;
  a_created_at : string
}.

(** The object [AttendanceDatabase]: the connection ([conn], [cursor]) is
    either usable or closed; the file holds the two tables in insertion order
    and the two AUTOINCREMENT counters. *)
Record AttendanceDatabase : Type := Database {
  conn_open : bool;
  users : list user_row;
  attendance : list attendance_row;
  users_seq : Z;
  attendance_seq : Z
}.

(** [AttendanceDatabase()] on a file that does not exist yet: [connect] then
    [create_tables]. *)
Definition new_database : AttendanceDatabase :=
  {| conn_open := true; users := []; attendance := [];
     users_seq := 0; attendance_seq := 0 |}.

(** Rows of [attendance] with a given [(user_id, date)]: the key of the
    constraint [UNIQUE(user_id, date)]. *)
Definition records_for (user_id : Z) (date : string)
    (db : AttendanceDatabase) : list attendance_row :=
  filter (λ r, a_user_id r = user_id ∧ a_date r = date) (attendance db).

Definition has_record (user_id : Z) (date : string)
    (db : AttendanceDatabase) : bool :=
  bool_decide (records_for user_id date db ≠ []).

(** Times stored under a key. *)
Definition stored_times (user_id : Z) (date : string)
    (db : AttendanceDatabase) : list string :=
  a_time <$> records_for user_id date db.

(** [INSERT INTO attendance (user_id, date, time) VALUES (?, ?, ?)] followed
    by [commit]: refused on a closed connection, refused with
    [IntegrityError] when a row with the same [(user_id, date)] is there;
    otherwise the row is appended with the next id, [status] defaulting to
    ['Present'] and [created_at] to the current timestamp. The clause
    [FOREIGN KEY (user_id) REFERENCES users(id)] is declared, but SQLite
    enforces it only under [PRAGMA foreign_keys = ON], which [database.py]
    never issues: a [user_id] without a user is inserted all the same. *)
Definition insert_attendance (clk : clock) (user_id : Z) (date time : string)
    (db : AttendanceDatabase) : result AttendanceDatabase :=
  if negb (conn_open db) then Raise ProgrammingError
  else if has_record user_id date db then Raise IntegrityError
  else
    let id := attendance_seq db + 1 in
    Ok {| conn_open := conn_open db;
          users := users db;
          attendance := attendance db ++
            [ {| a_id := id; a_user_id := user_id; a_date := date;
                 a_time := time; a_status := "Present"%string;
                 a_created_at := current_timestamp clk |} ];
          users_seq := users_seq db;
          attendance_seq := id |}.

(** [INSERT INTO users (roll_number, name) VALUES (?, ?)] followed by
    [commit]; [roll_number] is [UNIQUE]. Gives the new row id
    ([cursor.lastrowid]). *)
Definition insert_user (clk : clock) (roll_number name : string)
    (db : AttendanceDatabase) : result (Z * AttendanceDatabase) :=
  if negb (conn_open db) then Raise ProgrammingError
  else if bool_decide (roll_number ∈ u_roll_number <$> users db)
  then Raise IntegrityError
  else
    let id := users_seq db + 1 in
    Ok (id,
        {| conn_open := conn_open db;
           users := users db ++
             [ {| u_id := id; u_roll_number := roll_number; u_name := name;
                  u_created_at := current_timestamp clk |} ];
           attendance := attendance db;
           users_seq := id;
           attendance_seq := attendance_seq db |}).

(** ** [database.py]: the methods of [AttendanceDatabase] *)

(** [connect]: [sqlite3.connect] either gives a usable connection or raises
    [sqlite3.Error], which is caught and leaves the attributes as they were. *)
Definition connect (reachable : bool) (db : AttendanceDatabase)
    : AttendanceDatabase :=
  if reachable then
    {| conn_open := true; users := users db; attendance := attendance db;
       users_seq := users_seq db; attendance_seq := attendance_seq db |}
  else db.

(** [create_tables]: both statements are [CREATE TABLE IF NOT EXISTS], so on
    a file that has the tables nothing changes; on a closed connection the
    error is caught. *)
Definition create_tables (db : AttendanceDatabase) : AttendanceDatabase := db.

(** [close]. *)
Definition close (db : AttendanceDatabase) : AttendanceDatabase :=
  {| conn_open := false; users := users db; attendance := attendance db;
     users_seq := users_seq db; attendance_seq := attendance_seq db |}.

(** [add_user]: the new id, or [None] on a duplicate roll number and on any
    other [sqlite3.Error]. *)
Definition add_user (clk : clock) (roll_number name : string)
    (db : AttendanceDatabase) : option Z * AttendanceDatabase :=
  match insert_user clk roll_number name db with
  | Ok (user_id, db') => (Some user_id, db')
  | Raise IntegrityError => (None, db)
  | Raise _ => (None, db)
  end.

(** [get_user_by_roll]: [fetchone] of the rows with that roll number. *)
Definition get_user_by_roll (roll_number : string) (db : AttendanceDatabase)
    : option (Z * string * string) :=
  if negb (conn_open db) then None
  else
    (λ u, (u_id u, u_roll_number u, u_name u)) <$>
      head (filter (λ u, u_roll_number u = roll_number) (users db)).

(** [get_all_users]: [SELECT id, roll_number, name FROM users ORDER BY name];
    the empty list on [sqlite3.Error]. *)
Definition get_all_users (db : AttendanceDatabase)
    : list (Z * string * string) :=
  if negb (conn_open db) then []
  else
    (λ u, (u_id u, u_roll_number u, u_name u)) <$>
      merge_sort (λ u1 u2, String.le (u_name u1) (u_name u2)) (users db).

(** [mark_attendance(user_id, date=None, time=None)]. The two defaults read
    the clock; the [try] body is the insert and the commit; both [except]
    clauses return [False]. *)
Definition mark_attendance (clk : clock) (user_id : Z)
    (date time : option string) (db : AttendanceDatabase)
    : bool * AttendanceDatabase :=
  let date := default (now_date clk) date in
  let time := default (now_time clk) time in
  match insert_attendance clk user_id date time db with
  | Ok db' => (true, db')
  | Raise IntegrityError => (false, db)
  | Raise _ => (false, db)
  end.

(** What the storage can do to one [mark_attendance] on a usable
    connection: nothing; [cursor.execute] raises before the row is written
    (disk error, database locked); or the row is written and [conn.commit]
    raises, SQLite having either rolled the transaction back or left it
    open, with the row in it, on the connection. *)
Inductive storage_fault : Type :=
  | NoFault
  | ExecuteFault
  | CommitFault (rolled_back : bool).

(** The [try] body of [mark_attendance], [cursor.execute] then
    [conn.commit], under a fault: what it raises, if anything, and the
    tables as the connection sees them afterwards. No [except] clause rolls
    back. *)
Definition insert_and_commit (fault : storage_fault) (clk : clock)
    (user_id : Z) (date time : string) (db : AttendanceDatabase)
    : result unit * AttendanceDatabase :=
  if negb (conn_open db) then (Raise ProgrammingError, db)
  else
    match fault with
    | ExecuteFault => (Raise OperationalError, db)
    | _ =>
        match insert_attendance clk user_id date time db with
        | Raise e => (Raise e, db)
        | Ok db' =>
            match fault with
            | CommitFault rolled_back =>
                (Raise OperationalError, if rolled_back then db else db')
            | _ => (Ok tt, db')
            end
        end
    end.

(** [mark_attendance] with the storage fault made explicit;
    [mark_attendance] above is the case [NoFault]. *)
Definition mark_attendance_under (fault : storage_fault) (clk : clock)
    (user_id : Z) (date time : option string) (db : AttendanceDatabase)
    : bool * AttendanceDatabase :=
  let date := default (now_date clk) date in
  let time := default (now_time clk) time in
  match insert_and_commit fault clk user_id date time db with
  | (Ok _, db') => (true, db')
  | (Raise IntegrityError, db') => (false, db')
  | (Raise _, db') => (false, db')
  end.

(** [FROM attendance a JOIN users u ON a.user_id = u.id]. *)
Definition attendance_join_users (db : AttendanceDatabase)
    : list (attendance_row * user_row) :=
  a ← attendance db;
  u ← filter (λ u, u_id u = a_user_id a) (users db);
  [(a, u)].

(** [ORDER BY a.time]. Dates and times are the texts [strftime] produced
    (["%Y-%m-%d"], ["%H:%M:%S"]); SQLite keeps them as TEXT and compares them
    byte by byte, which is [String.le]. *)
Definition by_time (x y : attendance_row * user_row) : Prop :=
  String.le (a_time x.1) (a_time y.1).

(** [ORDER BY a.date DESC, a.time DESC]. *)
Definition by_date_desc_time_desc (x y : attendance_row * user_row) : Prop :=
  String.le (a_date y.1) (a_date x.1) ∧
  (a_date x.1 = a_date y.1 → String.le (a_time y.1) (a_time x.1)).

(** [SELECT u.name, u.roll_number, a.time, a.status]. *)
Definition daily_tuple (x : attendance_row * user_row)
    : string * string * string * string :=
  (u_name x.2, u_roll_number x.2, a_time x.1, a_status x.1).

(** [SELECT u.name, u.roll_number, a.date, a.time, a.status]. *)
Definition history_tuple (x : attendance_row * user_row)
    : string * string * string * string * string :=
  (u_name x.2, u_roll_number x.2, a_date x.1, a_time x.1, a_status x.1).

(** [get_attendance_by_date(date=None)]: tuples
    [(name, roll_number, time, status)]. *)
Definition get_attendance_by_date (clk : clock) (date : option string)
    (db : AttendanceDatabase) : list (string * string * string * string) :=
  let date := default (now_date clk) date in
  if negb (conn_open db) then []
  else
    daily_tuple <$>
      merge_sort by_time
        (filter (λ x, a_date x.1 = date) (attendance_join_users db)).

(** [get_user_attendance_stats]: [SELECT COUNT( * ) ... WHERE user_id = ?]. *)
Definition get_user_attendance_stats (user_id : Z) (db : AttendanceDatabase)
    : Z :=
  if negb (conn_open db) then 0
  else Z.of_nat (length (filter (λ r, a_user_id r = user_id) (attendance db))).

(** [get_all_attendance_records]: tuples
    [(name, roll_number, date, time, status)]. *)
Definition get_all_attendance_records (db : AttendanceDatabase)
    : list (string * string * string * string * string) :=
  if negb (conn_open db) then []
  else
    history_tuple <$>
      merge_sort by_date_desc_time_desc (attendance_join_users db).

(** Columns of the tuples the two queries return. *)
Definition daily_time (r : string * string * string * string) : string :=
  r.1.2.



(** The calls that can change an [AttendanceDatabase], in any order. *)
Inductive db_call : Type :=
  | CallConnect (reachable : bool)
  | CallCreateTables
  | CallAddUser (clk : clock) (roll_number name : string)
  | CallMarkAttendance (clk : clock) (user_id : Z) (date time : option string)
  | CallClose.

Definition run_call (db : AttendanceDatabase) (c : db_call)
    : AttendanceDatabase :=
  match c with
  | CallConnect reachable => connect reachable db
  | CallCreateTables => create_tables db
  | CallAddUser clk roll_number name => (add_user clk roll_number name db).2
  | CallMarkAttendance clk user_id date time =>
      (mark_attendance clk user_id date time db).2
  | CallClose => close db
  end.

Definition run_calls (db : AttendanceDatabase) (cs : list db_call)
    : AttendanceDatabase :=
  foldl run_call db cs.

(** The invariant of table [attendance]: no key holds two rows. *)
Definition unique_keys (db : AttendanceDatabase) : Prop :=
  ∀ i d, (length (records_for i d db) ≤ 1)%nat.

(** ** [attendance.py]: the class [AttendanceSystem] *)

(** The confidence [recognizer.predict] returns is a C double handed to
    Python as a [float]: a rational, an infinity or a NaN. Python compares a
    float with the threshold (the integer 70, or whatever number the
    attribute was set to) exactly, and every comparison with a NaN is
    [False]. *)
Inductive pyfloat : Type :=
  | Finite (q : Q)
  | PosInf
  | NegInf
  | NaN.

(** [x < t] as Python evaluates it. *)
Definition float_lt (x : pyfloat) (t : Q) : bool :=
  match x with
  | Finite q => negb (Qle_bool t q)
  | NegInf => true
  | PosInf | NaN => false
  end.

(** [x == t] as Python evaluates it. *)
Definition float_eq (x : pyfloat) (t : Q) : bool :=
  match x with
  | Finite q => Qeq_bool q t
  | _ => false
  end.

(** A value of the dictionary [label_map]. *)
Record user_info : Type := UserInfo {
  roll_number : string;
  name : string
}.

(** The attribute [recognizer]: [None], or the object made by
    [LBPHFaceRecognizer_create], holding a model once [read] returned. *)
Inductive recognizer_obj : Type :=
  | Empty
  | Loaded.

(** The attributes of an [AttendanceSystem]. [label_map] is [None] until the
    first [load_recognizer], which assigns a fresh dictionary before any
    read of it; the model starts it at the empty dictionary. *)
Record AttendanceSystem : Type := System {
  db : AttendanceDatabase;
  recognizer : option recognizer_obj;
  label_map : gmap Z user_info;
  recognition_threshold : Q;
  marked_today : gset Z
}.

(** [AttendanceSystem(db)]. *)
Definition new_system (d : AttendanceDatabase) : AttendanceSystem :=
  {| db := d; recognizer := None; label_map := ∅;
     recognition_threshold := 70; marked_today := ∅ |}.

(** The file [face_recognizer.yml]: absent, present but rejected by
    [recognizer.read] (which raises), or a trained model. *)
Inductive yml_file : Type :=
  | NoFile
  | Unreadable
  | TrainedModel.

(** One detected face: what [predict] says of the region, and the clock as
    [mark_attendance] reads it if it is called for this face. *)
Record face : Type := Face {
  label : Z;
  confidence : pyfloat;
  face_clock : clock
}.

(** One turn of the loop: [ret] of [cap.read()], the faces of
    [detectMultiScale] in order, and whether [waitKey] saw the key q. *)
Record frame : Type := Frame {
  ret : bool;
  faces : list face;
  quit_key : bool
}.

(** Everything a call of [start_attendance] takes from outside. *)
Record world : Type := World {
  model_file : yml_file;
  camera_opens : bool;
  start_clock : clock;
  frames : list frame
}.

(** What a session does that can be seen from outside the object. *)
Inductive event : Type :=
  | OpenCamera
  | ReleaseCamera
  | LedgerCall (label : Z) (date : string) (success : bool)
  | ShowRecognized (label : Z)
  | ShowMarked (label : Z)
  | ShowAlreadyMarked (label : Z)
  | ShowUnknown.

Global Instance event_eq_dec : EqDecision event.
Proof. solve_decision. Defined.

(** The outcome of the two nested tests on a face. *)
Inductive reject_reason : Type :=
  | TooFar
  | NotInDirectory.

Inductive decision : Type :=
  | Accepted (label : Z) (info : user_info)
  | Rejected (why : reject_reason).

(** [if confidence < self.recognition_threshold:] then
    [user_info = self.label_map.get(label, None)] and [if user_info:]; a
    value of the dictionary has two keys, so it is true whenever present. *)
Definition decide_face (directory : gmap Z user_info) (threshold : Q)
    (label : Z) (score : pyfloat) : decision :=
  if float_lt score threshold then
    match directory !! label with
    | Some info => Accepted label info
    | None => Rejected NotInDirectory
    end
  else Rejected TooFar.

(** [load_recognizer]. *)
Definition load_recognizer (w : world) (sys : AttendanceSystem)
    : bool * AttendanceSystem :=
  match model_file w with
  | NoFile => (false, sys)
  | Unreadable =>
      (false,
       {| db := db sys; recognizer := Some Empty; label_map := label_map sys;
          recognition_threshold := recognition_threshold sys;
          marked_today := marked_today sys |})
  | TrainedModel =>
      (true,
       {| db := db sys; recognizer := Some Loaded;
          label_map :=
            foldl (λ m u, <[u.1.1 := {| roll_number := u.1.2; name := u.2 |}]> m)
                  ∅ (get_all_users (db sys));
          recognition_threshold := recognition_threshold sys;
          marked_today := marked_today sys |})
  end.

(** The local state of the loop of [start_attendance]: the object, the
    variables [today] and [frame_count], and the events so far. *)
Record session : Type := Session {
  sys : AttendanceSystem;
  today : string;
  frame_count : nat;
  trace : list event
}.

Definition emit (es : list event) (st : session) : session :=
  {| sys := sys st; today := today st; frame_count := frame_count st;
     trace := trace st ++ es |}.

(** [label in self.marked_today]. *)
Definition already_marked (s : AttendanceSystem) (label : Z) : bool :=
  bool_decide (label ∈ marked_today s).

(** The body of [for (x, y, w, h) in faces:]. *)
Definition process_face (st : session) (f : face) : session :=
  let s := sys st in
  match decide_face (label_map s) (recognition_threshold s) (label f)
               (confidence f) with
  | Accepted l _ =>
      if already_marked s l then emit [ShowRecognized l] st
      else
        let '(success, db') :=
          mark_attendance (face_clock f) l None None (db s) in
        let call := LedgerCall l (now_date (face_clock f)) success in
        if success then
          {| sys := {| db := db'; recognizer := recognizer s;
                       label_map := label_map s;
                       recognition_threshold := recognition_threshold s;
                       marked_today := marked_today s ∪ {[l]} |};
             today := today st; frame_count := frame_count st;
             trace := trace st ++ [ShowRecognized l; call; ShowMarked l] |}
        else
          {| sys := {| db := db'; recognizer := recognizer s;
                       label_map := label_map s;
                       recognition_threshold := recognition_threshold s;
                       marked_today := marked_today s |};
             today := today st; frame_count := frame_count st;
             trace := trace st ++
               [ShowRecognized l; call; ShowAlreadyMarked l] |}
  | Rejected TooFar => emit [ShowUnknown] st
  | Rejected NotInDirectory => st
  end.

(** The loop [while True:] over the frames the camera delivers; it ends at a
    failed read, at the key q, or with the frames observed. *)
Fixpoint run_frames (fs : list frame) (st : session) : session :=
  match fs with
  | [] => st
  | f :: fs' =>
      if negb (ret f) then st
      else
        let st1 :=
          foldl process_face
            {| sys := sys st; today := today st;
               frame_count := S (frame_count st); trace := trace st |}
            (faces f) in
        if quit_key f then st1 else run_frames fs' st1
  end.

(** [start_attendance] up to the loop: either it returns early, or the loop
    is entered in the state given. *)
Inductive startup : Type :=
  | NotStarted (s : AttendanceSystem) (tr : list event)
  | Running (st : session).

Definition initialize (w : world) (s : AttendanceSystem) : startup :=
  let '(ok, s1) := load_recognizer w s in
  if negb ok then NotStarted s1 []
  else if negb (camera_opens w) then NotStarted s1 [OpenCamera]
  else
    Running
      {| sys := {| db := db s1; recognizer := recognizer s1;
                   label_map := label_map s1;
                   recognition_threshold := recognition_threshold s1;
                   marked_today := ∅ |};
         today := now_date (start_clock w);
         frame_count := 0;
         trace := [OpenCamera] |}.

(** [start_attendance]: the object as the call leaves it, and the events. *)
Definition start_attendance (w : world) (s : AttendanceSystem)
    : AttendanceSystem * list event :=
  match initialize w s with
  | NotStarted s' tr => (s', tr)
  | Running st =>
      let st' := run_frames (frames w) st in
      (sys st', trace st' ++ [ReleaseCamera])
  end.

(** The calls of [mark_attendance] for one label in a trace: what each
    returned, in order, and how many there were. *)
Definition call_result (l : Z) (e : event) : option bool :=
  match e with
  | LedgerCall l' _ success => if bool_decide (l' = l) then Some success else None
  | _ => None
  end.

Definition call_results (l : Z) (tr : list event) : list bool :=
  omap (call_result l) tr.

Definition ledger_calls (l : Z) (tr : list event) : nat :=
  length (call_results l tr).

(** The two ways the loop body can go: no call of the ledger and the object
    untouched, or one call for the label of the face, which was accepted and
    not in the cache; the label enters the cache exactly when the call
    returned [True]. *)
Inductive face_step (st : session) (f : face) (st' : session) : Prop :=
  | step_quiet (es : list event) :
      sys st' = sys st →
      trace st' = (trace st ++ es)%list →
      (∀ l d ok, LedgerCall l d ok ∉ es) →
      face_step st f st'
  | step_call (info : user_info) :
      label_map (sys st) !! label f = Some info →
      float_lt (confidence f) (recognition_threshold (sys st)) = true →
      label f ∉ marked_today (sys st) →
      let r := mark_attendance (face_clock f) (label f) None None
                 (db (sys st)) in
      db (sys st') = r.2 →
      marked_today (sys st')
        = (if r.1 then marked_today (sys st) ∪ {[label f]}
           else marked_today (sys st)) →
      trace st'
        = (trace st ++
           [ShowRecognized (label f);
            LedgerCall (label f) (now_date (face_clock f)) r.1;
            if r.1 then ShowMarked (label f)
            else ShowAlreadyMarked (label f)])%list →
      face_step st f st'.

(** Results of the form [False; ...; False] or [False; ...; False; True]:
    at most one [True], and nothing after it. *)
Definition failures_then_success (rs : list bool) : Prop :=
  ∃ n, rs = replicate n false ∨ rs = (replicate n false ++ [true])%list.

(** Invariant of the loop, per label: the calls for it so far all failed,
    unless the label is in the cache, in which case the last one succeeded. *)
Definition results_invariant (l : Z) (st : session) : Prop :=
  ∃ n, call_results l (trace st) = replicate n false ∨
       (l ∈ marked_today (sys st) ∧
        call_results l (trace st) = (replicate n false ++ [true])%list).

(** Invariant of the loop, per label, against the store [db0] the session
    began with: the connection is usable; there was at most one call; while
    the label is not in the cache there was none and its rows are those of
    [db0]. *)
Definition single_call_invariant (l : Z) (db0 : AttendanceDatabase)
    (st : session) : Prop :=
  conn_open (db (sys st)) = true ∧
  (ledger_calls l (trace st) ≤ 1)%nat ∧
  (l ∉ marked_today (sys st) →
   ledger_calls l (trace st) = 0%nat ∧
   ∀ d, records_for l d (db (sys st)) = records_for l d db0).

(** Invariant of the loop linking the cache to the ledger: every label in
    the cache has a row under one of the dates [D] allows for it. *)
Definition cache_invariant (D : Z → string → Prop) (st : session) : Prop :=
  ∀ l, l ∈ marked_today (sys st) →
       ∃ d, D l d ∧ has_record l d (db (sys st)) = true.

(** ** Data for the examples *)

(** A small store used by the examples: Alice (roll R100) is user 1, Bob
    (roll R200) is user 2. *)
Definition clock_at (d t : string) : clock :=
  {| now_date := d; now_time := t;
     current_timestamp := String.app d (String.app " " t) |}.

Definition enrolled_db : AttendanceDatabase :=
  (add_user (clock_at "2024-01-09" "08:05:00") "R200" "Bob"
     (add_user (clock_at "2024-01-09" "08:00:00") "R100" "Alice"
        new_database).2).2.

(** Alice was recorded on 2024-01-10 at 09:00:00. *)
Definition recorded_db : AttendanceDatabase :=
  (mark_attendance (clock_at "2024-01-10" "09:00:00") 1 None None
     enrolled_db).2.

(** A system over each store, and a system left over from an earlier
    session in which Alice was marked. *)
Definition alice_info : user_info :=
  {| roll_number := "R100"; name := "Alice" |}.

Definition used_system : AttendanceSystem :=
  {| db := recorded_db; recognizer := Some Loaded;
     label_map := {[ 1 := alice_info ]};
     recognition_threshold := 70; marked_today := {[ 1 ]} |}.

(** Alice in front of the camera, at distance 45, at a given moment. *)
Definition alice_at (d t : string) : face :=
  {| label := 1; confidence := Finite 45; face_clock := clock_at d t |}.

(** A session started on 2024-01-10 at 17:00:00 that sees Alice in two
    consecutive frames. *)
Definition evening_world : world :=
  {| model_file := TrainedModel; camera_opens := true;
     start_clock := clock_at "2024-01-10" "17:00:00";
     frames :=
       [ {| ret := true; faces := [alice_at "2024-01-10" "17:00:01"];
            quit_key := false |};
         {| ret := true; faces := [alice_at "2024-01-10" "17:00:02"];
            quit_key := false |} ] |}.

(** A session started on 2024-01-10 at 23:59:50 that sees Alice once, just
    after midnight. *)
Definition midnight_world : world :=
  {| model_file := TrainedModel; camera_opens := true;
     start_clock := clock_at "2024-01-10" "23:59:50";
     frames :=
       [ {| ret := true; faces := [alice_at "2024-01-11" "00:00:05"];
            quit_key := false |} ] |}.

(** A trained model on disk, a camera, and nobody in front of it. *)
Definition idle_world : world :=
  {| model_file := TrainedModel; camera_opens := true;
     start_clock := clock_at "2024-01-10" "17:00:00"; frames := [] |}.

(** A trained model on disk and a camera that does not open: the call
    returns at [if not cap.isOpened():]. *)
Definition no_camera_world : world :=
  {| model_file := TrainedModel; camera_opens := false;
     start_clock := clock_at "2024-01-10" "17:00:00"; frames := [] |}.

(** The state in which the loop is entered when a session starts on
    2024-01-10 at 17:00:00 over the store in which Alice is recorded for
    that day. *)
Definition second_session : session :=
  {| sys := {| db := recorded_db; recognizer := Some Loaded;
               label_map :=
                 {[ 1 := alice_info;
                    2 := {| roll_number := "R200"; name := "Bob" |} ]};
               recognition_threshold := 70; marked_today := ∅ |};
     today := "2024-01-10"; frame_count := 0; trace := [OpenCamera] |}.

(** * The rest of the repository

    [utils/helpers.py], [face_register.py], [utils/report_generator.py] and
    the prompts of [main.py], modelled on top of the store above, with the
    invariants used to state their properties. *)

(** ** More of the store: what the schema keeps *)

(** The invariant of table [users]: [roll_number] is [UNIQUE], [id] is the
    [PRIMARY KEY], handed out by AUTOINCREMENT from 1 upwards. *)
Definition users_unique (db : AttendanceDatabase) : Prop :=
  NoDup (u_roll_number <$> users db) ∧
  NoDup (u_id <$> users db) ∧
  Forall (λ u, u_id u ≤ users_seq db) (users db).

(** The dates under which a user has a row: what
    [get_user_attendance_stats] counts. *)
Definition days_present (user_id : Z) (db : AttendanceDatabase)
    : list string :=
  a_date <$> filter (λ r, a_user_id r = user_id) (attendance db).

(** Every attendance row refers to exactly one user. [database.py] does not
    make SQLite enforce it; a session keeps it. *)
Definition referential_integrity (db : AttendanceDatabase) : Prop :=
  NoDup (u_id <$> users db) ∧
  Forall (λ a, a_user_id a ∈ u_id <$> users db) (attendance db).

(** ** More of the session: what the loop keeps *)

(** Invariant of the loop against the store [db0] the session began with:
    [users] is untouched, [attendance] is the old table followed by one new
    row per label in the cache, each new row belonging to a label of the
    cache that the label map knows: the user ids of the new rows are the
    labels of the cache, each once. *)
Definition session_bookkeeping (db0 : AttendanceDatabase) (st : session)
    : Prop :=
  users (db (sys st)) = users db0 ∧
  ∃ new : list attendance_row,
    attendance (db (sys st)) = (attendance db0 ++ new)%list ∧
    length new = size (marked_today (sys st)) ∧
    Forall (λ a, a_user_id a ∈ marked_today (sys st) ∧
                 is_Some (label_map (sys st) !! a_user_id a)) new ∧
    a_user_id <$> new ≡ₚ elements (marked_today (sys st)).

(** A face the two nested tests turn away: its label is not a key of the
    label map, or its score is not below the threshold. *)
Definition turned_away (s : AttendanceSystem) (f : face) : Prop :=
  label_map s !! label f = None ∨
  float_lt (confidence f) (recognition_threshold s) = false.

(** Invariant of a loop that sees only such faces. *)
Definition nothing_recorded (s0 : AttendanceSystem) (st : session) : Prop :=
  sys st = s0 ∧ ∀ l d ok, LedgerCall l d ok ∉ trace st.

(** Invariant of the loop: the camera is opened once, first, and not
    released inside the loop. *)
Definition camera_held (st : session) : Prop :=
  ∃ body, trace st = OpenCamera :: body ∧
          (OpenCamera ∉ body) ∧ (ReleaseCamera ∉ body).

(** One frame with two faces that are turned away: Alice too far from her
    samples (85), and a label (7) nobody has. *)
Definition strangers_frames : list frame :=
  [ {| ret := true;
       faces := [ {| label := 1; confidence := Finite 85;
                     face_clock := clock_at "2024-01-10" "17:00:01" |};
                  {| label := 7; confidence := Finite 20;
                     face_clock := clock_at "2024-01-10" "17:00:01" |} ];
       quit_key := false |} ].

(** ** [utils/helpers.py]: the two validators *)

(** A Python [str] is a sequence of characters; which characters are
    whitespace is the interpreter's table ([str.isspace]), taken here as the
    parameter [isspace]. *)
Fixpoint lstrip {char : Type} (isspace : char → bool) (s : list char)
    : list char :=
  match s with
  | [] => []
  | c :: s' => if isspace c then lstrip isspace s' else s
  end.

Definition rstrip {char : Type} (isspace : char → bool) (s : list char)
    : list char :=
  reverse (lstrip isspace (reverse s)).

(** [s.strip()]. *)
Definition strip {char : Type} (isspace : char → bool) (s : list char)
    : list char :=
  rstrip isspace (lstrip isspace s).

(** [bool(s)] for a string: it is not empty. *)
Definition truthy {char : Type} (s : list char) : bool :=
  match s with
  | [] => false
  | _ => true
  end.

(** [validate_roll_number]:
    [bool(roll_number and roll_number.strip())]. *)
Definition validate_roll_number {char : Type} (isspace : char → bool)
    (roll_number : list char) : bool :=
  if truthy roll_number then truthy (strip isspace roll_number) else false.

(** [validate_name]:
    [bool(name and name.strip() and len(name) >= 2)]. *)
Definition validate_name {char : Type} (isspace : char → bool)
    (name : list char) : bool :=
  if truthy name then
    if truthy (strip isspace name) then bool_decide (2 ≤ length name)%nat
    else false
  else false.

(** The prompts of [register_new_face] in [main.py]: read a line, strip it,
    ask again until the validator accepts it. [None] when the input ends
    first ([input] raises [EOFError]). The answer, and the lines left. *)
Fixpoint prompt_until_valid {char : Type} (isspace : char → bool)
    (valid : list char → bool) (lines : list (list char))
    : option (list char * list (list char)) :=
  match lines with
  | [] => None
  | line :: rest =>
      let answer := strip isspace line in
      if valid answer then Some (answer, rest)
      else prompt_until_valid isspace valid rest
  end.

(** The text has no whitespace at either end. *)
Definition stripped {char : Type} (isspace : char → bool) (s : list char)
    : Prop :=
  (∀ c, head s = Some c → isspace c = false) ∧
  (∀ c, last s = Some c → isspace c = false).

(** Whitespace as CPython's [str.isspace] has it, on code points. *)
Definition py_isspace (c : N) : bool :=
  bool_decide (c ∈ [9; 10; 11; 12; 13; 28; 29; 30; 31; 32; 133; 160; 5760;
                    8192; 8193; 8194; 8195; 8196; 8197; 8198; 8199; 8200;
                    8201; 8202; 8232; 8233; 8239; 8287; 12288]%N).

(** ** [face_register.py]: capturing the samples of a new user *)

(** [name.replace(' ', '_')]. *)
Fixpoint replace_spaces (s : string) : string :=
  match s with
  | EmptyString => EmptyString
  | String c s' =>
      String (if Ascii.eqb c " "%char then "_"%char else c) (replace_spaces s')
  end.

(** The directory of a user under [known_faces]:
    [f"{roll_number}_{name.replace(' ', '_')}"]. *)
Definition user_dir (roll_number name : string) : string :=
  String.app roll_number (String.app "_" (replace_spaces name)).

(** What the program keeps on disk for registration: the directories under
    [known_faces] and, in each, the files [face_<n>.jpg] by their number. *)
Record disk : Type := Disk {
  dirs : gset string;
  jpgs : gset (string * nat)
}.

(** One turn of the capture loop: [ret] of [cap.read()]; for each detected
    face, whether [cv2.imwrite] stored the file (it returns [False] without
    raising when it cannot); whether [waitKey] saw the key q. *)
Record capture_frame : Type := CaptureFrame {
  c_ret : bool;
  c_faces : list bool;
  c_quit : bool
}.

(** Everything a call of [capture_face_samples] takes from outside. *)
Record capture_world : Type := CaptureWorld {
  makedirs_ok : bool;
  c_camera_opens : bool;
  c_frames : list capture_frame
}.

(** How the call ends: it returns a boolean, or [os.makedirs] raises. *)
Inductive capture_outcome : Type :=
  | Returned (success : bool)
  | RaisedOSError.

Record capture_result : Type := CaptureResult {
  outcome : capture_outcome;
  db_after : AttendanceDatabase;
  disk_after : disk;
  captured : nat
}.

(** The body of [for (x, y, w, h) in faces:]: the sample is written as
    [face_<count>.jpg] and [count] goes up, stored or not. *)
Definition save_face (dir : string) (acc : nat * disk) (stored : bool)
    : nat * disk :=
  (S acc.1,
   if stored then
     {| dirs := dirs acc.2; jpgs := jpgs acc.2 ∪ {[ (dir, acc.1) ]} |}
   else acc.2).

(** The loop [while count < num_samples:], over the frames the camera
    delivers; it ends when the count reaches the bound, at a failed read,
    at the key q, or with the frames observed. *)
Fixpoint capture_loop (dir : string) (num_samples : Z)
    (frs : list capture_frame) (count : nat) (d : disk) : nat * disk :=
  match frs with
  | [] => (count, d)
  | fr :: frs' =>
      if bool_decide (Z.of_nat count < num_samples) then
        if negb (c_ret fr) then (count, d)
        else
          let acc := foldl (save_face dir) (count, d) (c_faces fr) in
          if c_quit fr then acc else capture_loop dir num_samples frs' acc.1 acc.2
      else (count, d)
  end.

(** [capture_face_samples(roll_number, name, num_samples=30)]. *)
Definition capture_face_samples (w : capture_world) (clk : clock)
    (roll_number name : string) (num_samples : Z)
    (db0 : AttendanceDatabase) (d : disk) : capture_result :=
  match get_user_by_roll roll_number db0 with
  | Some _ =>
      {| outcome := Returned false; db_after := db0; disk_after := d;
         captured := 0 |}
  | None =>
      match add_user clk roll_number name db0 with
      | (None, db1) =>
          {| outcome := Returned false; db_after := db1; disk_after := d;
             captured := 0 |}
      | (Some _, db1) =>
          let dir := user_dir roll_number name in
          if bool_decide (dir ∈ dirs d) || makedirs_ok w then
            let d1 := {| dirs := dirs d ∪ {[ dir ]}; jpgs := jpgs d |} in
            if negb (c_camera_opens w) then
              {| outcome := Returned false; db_after := db1;
                 disk_after := d1; captured := 0 |}
            else
              let acc := capture_loop dir num_samples (c_frames w) 0 d1 in
              {| outcome := Returned true; db_after := db1;
                 disk_after := acc.2; captured := acc.1 |}
          else
            {| outcome := RaisedOSError; db_after := db1; disk_after := d;
               captured := 0 |}
      end
  end.

(** Invariant of the capture loop started at [count0]: the counter only
    goes up, directories are untouched, and a file that was not there
    before is a sample of [dir] numbered from [count0] up to the counter. *)
Definition capture_invariant (dir : string) (count0 : nat) (d0 : disk)
    (acc : nat * disk) : Prop :=
  (count0 ≤ acc.1)%nat ∧
  dirs acc.2 = dirs d0 ∧
  jpgs d0 ⊆ jpgs acc.2 ∧
  ∀ p n, (p, n) ∈ jpgs acc.2 → (p, n) ∉ jpgs d0 →
         p = dir ∧ (count0 ≤ n < acc.1)%nat.

(** ** [utils/report_generator.py] *)

(** What the reports take from the interpreter and the operating system:
    [str.lower] and the separator [os.path.join] puts between a directory
    and a file name that is not absolute (every file name below begins with
    ["attendance_"]). *)
Record platform : Type := Platform {
  str_lower : string → string;
  path_sep : string
}.

(** A report as the code hands it to pandas ([to_csv], [to_excel]), which
    does the writing and may raise: the path to write to (the value the
    function then returns), the sheet name when the format is Excel, the
    column titles and the rows. *)
Record report : Type := Report {
  report_path : string;
  sheet_name : option string;
  header : list string;
  body : list (list string)
}.

(** [self.reports_dir]. *)
Definition reports_dir : string := "attendance_reports".

(** The choice [if export_format.lower() == 'excel': ... else: ...] and the
    [os.path.join] of both branches. *)
Definition report_target (pf : platform) (filename export_format sheet : string)
    : string * option string :=
  if String.eqb (str_lower pf export_format) "excel" then
    (String.app reports_dir
       (String.app (path_sep pf) (String.app filename ".xlsx")), Some sheet)
  else
    (String.app reports_dir
       (String.app (path_sep pf) (String.app filename ".csv")), None).

(** [generate_daily_report(date=None, export_format='csv')]: [None] when it
    returns [None] for lack of records, else the report it goes on to
    write. *)
Definition generate_daily_report (pf : platform) (clk : clock)
    (date : option string) (export_format : string)
    (db0 : AttendanceDatabase) : option report :=
  let date := default (now_date clk) date in
  let records := get_attendance_by_date clk (Some date) db0 in
  match records with
  | [] => None
  | _ =>
      let target :=
        report_target pf (String.app "attendance_" date) export_format
          "Attendance" in
      Some {| report_path := target.1; sheet_name := target.2;
              header := ["Name"; "Roll Number"; "Time"; "Status"]%string;
              body := (λ r, [r.1.1.1; r.1.1.2; r.1.2; r.2]) <$> records |}
  end.

(** [generate_full_report(export_format='csv')]; [timestamp] is
    [datetime.now().strftime("%Y%m%d_%H%M%S")]. *)
Definition generate_full_report (pf : platform) (timestamp : string)
    (export_format : string) (db0 : AttendanceDatabase) : option report :=
  let records := get_all_attendance_records db0 in
  match records with
  | [] => None
  | _ =>
      let target :=
        report_target pf (String.app "attendance_full_" timestamp)
          export_format "All Attendance" in
      Some {| report_path := target.1; sheet_name := target.2;
              header :=
                ["Name"; "Roll Number"; "Date"; "Time"; "Status"]%string;
              body :=
                (λ r, [r.1.1.1.1; r.1.1.1.2; r.1.1.2; r.1.2; r.2]) <$>
                  records |}
  end.

(** [ORDER BY date DESC, time DESC] on rows of [attendance]. *)
Definition row_date_desc_time_desc (x y : attendance_row) : Prop :=
  String.le (a_date y) (a_date x) ∧
  (a_date x = a_date y → String.le (a_time y) (a_time x)).

(** The statement [generate_user_report] runs on the shared cursor:
    [SELECT date, time, status FROM attendance WHERE user_id = ?
     ORDER BY date DESC, time DESC]. *)
Definition select_user_records (user_id : Z) (db0 : AttendanceDatabase)
    : result (list (string * string * string)) :=
  if negb (conn_open db0) then Raise ProgrammingError
  else
    Ok ((λ a, (a_date a, a_time a, a_status a)) <$>
          merge_sort row_date_desc_time_desc
            (filter (λ a, a_user_id a = user_id) (attendance db0))).

(** [generate_user_report(roll_number, export_format='csv')]. *)
Definition generate_user_report (pf : platform) (timestamp : string)
    (roll_number export_format : string) (db0 : AttendanceDatabase)
    : option report :=
  match get_user_by_roll roll_number db0 with
  | None => None
  | Some (user_id, roll_number, name) =>
      match select_user_records user_id db0 with
      | Raise _ => None
      | Ok [] => None
      | Ok records =>
          let target :=
            report_target pf
              (String.app "attendance_"
                 (String.app roll_number (String.app "_" timestamp)))
              export_format name in
          Some {| report_path := target.1; sheet_name := target.2;
                  header :=
                    ["Name"; "Roll Number"; "Date"; "Time"; "Status"]%string;
                  body :=
                    (λ r, [name; roll_number; r.1.1; r.1.2; r.2]) <$>
                      records |}
      end
  end.

(** [display_statistics]: [None] when no user is registered, else the rows
    of the table it prints: name, roll number, total days present. *)
Definition display_statistics (db0 : AttendanceDatabase)
    : option (list (string * string * Z)) :=
  match get_all_users db0 with
  | [] => None
  | users0 =>
      Some ((λ u, (u.2, u.1.2, get_user_attendance_stats u.1.1 db0)) <$>
              users0)
  end.

(** The sum of a column of totals. *)
Definition sum_totals (rows : list (string * string * Z)) : Z :=
  foldr (λ r acc, r.2 + acc) 0 rows.

(** ** [face_register.py]: training *)

(** The samples [train_recognizer] loads from a directory: the files
    [os.listdir] gives that end in [.jpg] (all the files the model keeps
    do) and that [cv2.imread] can read. *)
Definition samples_in (readable : string * nat → bool) (d : disk)
    (dir : string) : list (string * nat) :=
  filter (λ f, f.1 = dir ∧ readable f = true) (elements (jpgs d)).

(** What a training pass produced: the label of each face it was trained
    on, and the label map. *)
Record training : Type := Training {
  trained_labels : list Z;
  trained_label_map : gmap Z user_info
}.

(** [train_recognizer]: the value returned ([None] for [(None, None)]) and
    the file [face_recognizer.yml] afterwards. *)
Definition train_recognizer (readable : string * nat → bool)
    (db0 : AttendanceDatabase) (d : disk) (yml : yml_file)
    : option training * yml_file :=
  match get_all_users db0 with
  | [] => (None, yml)
  | users0 =>
      let with_dir :=
        filter (λ u : Z * string * string, user_dir u.1.2 u.2 ∈ dirs d)
          users0 in
      let labels :=
        with_dir ≫= λ u,
          (λ _, u.1.1) <$> samples_in readable d (user_dir u.1.2 u.2) in
      match labels with
      | [] => (None, yml)
      | _ =>
          (Some {| trained_labels := labels;
                   trained_label_map :=
                     foldl (λ m u,
                              <[u.1.1 := {| roll_number := u.1.2;
                                            name := u.2 |}]> m)
                           ∅ with_dir |},
           TrainedModel)
      end
  end.

(** * Properties *)

(** ** The ledger *)

Section ledger.
Implicit Types (db : AttendanceDatabase) (i : Z) (d t : string).

Lemma has_record_false i d db :
  has_record i d db = false ↔ records_for i d db = [].
Proof.
  unfold has_record. rewrite bool_decide_eq_false.
  split; [intros H; by apply dec_stable | intros -> H; by apply H].
Qed.

Lemma has_record_true i d db :
  has_record i d db = true ↔ records_for i d db ≠ [].
Proof. unfold has_record. by rewrite bool_decide_eq_true. Qed.

(** What a successful insert does to the rows under each key. *)
Lemma insert_attendance_Ok clk i d t db db' :
  insert_attendance clk i d t db = Ok db' →
  conn_open db = true ∧ records_for i d db = [] ∧
  conn_open db' = true ∧ users db' = users db ∧
  stored_times i d db' = [t] ∧
  ∀ i' d', (i', d') ≠ (i, d) → records_for i' d' db' = records_for i' d' db.
Proof.
  unfold insert_attendance.
  destruct (conn_open db) eqn:Hc; simpl; [|done].
  destruct (has_record i d db) eqn:Hr; [done|].
  apply has_record_false in Hr. intros [= <-]; simpl.
  repeat split; try done.
  - unfold stored_times, records_for in *; simpl.
    rewrite filter_app, Hr; simpl.
    rewrite filter_cons_True by done. done.
  - intros i' d' Hne. unfold records_for; simpl.
    rewrite filter_app, filter_cons_False, filter_nil, app_nil_r; [done|].
    simpl. intros [-> ->]. by apply Hne.
Qed.

Lemma insert_attendance_Raise clk i d t db e :
  insert_attendance clk i d t db = Raise e →
  (e = ProgrammingError ∧ conn_open db = false) ∨
  (e = IntegrityError ∧ conn_open db = true ∧ has_record i d db = true).
Proof.
  unfold insert_attendance.
  destruct (conn_open db); simpl; [|intros [= <-]; by left].
  destruct (has_record i d db); [|done]. intros [= <-]; by right.
Qed.

(** A call that does not return [True] leaves the store as it was. *)
Lemma mark_attendance_false clk i date time db :
  (mark_attendance clk i date time db).1 = false →
  (mark_attendance clk i date time db).2 = db.
Proof.
  unfold mark_attendance.
  destruct (insert_attendance _ _ _ _ _) as [db'|[]]; simpl; done.
Qed.

Lemma mark_attendance_true clk i date time db :
  (mark_attendance clk i date time db).1 = true →
  insert_attendance clk i (default (now_date clk) date)
    (default (now_time clk) time) db
  = Ok (mark_attendance clk i date time db).2.
Proof.
  unfold mark_attendance.
  destruct (insert_attendance _ _ _ _ _) as [db'|[]]; simpl; done.
Qed.

Lemma mark_attendance_conn clk i date time db :
  conn_open (mark_attendance clk i date time db).2 = conn_open db.
Proof.
  destruct (mark_attendance clk i date time db).1 eqn:E.
  - apply mark_attendance_true, insert_attendance_Ok in E.
    destruct E as (-> & _ & -> & _). done.
  - apply mark_attendance_false in E. by rewrite E.
Qed.

Lemma mark_attendance_users clk i date time db :
  users (mark_attendance clk i date time db).2 = users db.
Proof.
  destruct (mark_attendance clk i date time db).1 eqn:E.
  - apply mark_attendance_true, insert_attendance_Ok in E.
    by destruct E as (_ & _ & _ & -> & _).
  - apply mark_attendance_false in E. by rewrite E.
Qed.

(** On a usable connection the first call for a key succeeds. *)
Lemma mark_attendance_first clk i date time db :
  conn_open db = true →
  has_record i (default (now_date clk) date) db = false →
  (mark_attendance clk i date time db).1 = true.
Proof.
  intros Hc Hr. unfold mark_attendance, insert_attendance.
  rewrite Hc, Hr. done.
Qed.

(** The rows under a key other than the one written are untouched. *)
Lemma mark_attendance_other clk i date time db i' d' :
  (i', d') ≠ (i, default (now_date clk) date) →
  records_for i' d' (mark_attendance clk i date time db).2
  = records_for i' d' db.
Proof.
  intros Hne.
  destruct (mark_attendance clk i date time db).1 eqn:E.
  - apply mark_attendance_true, insert_attendance_Ok in E.
    destruct E as (_ & _ & _ & _ & _ & E). by apply E.
  - apply mark_attendance_false in E. by rewrite E.
Qed.

(** Rows are never removed, and a key that has a row keeps exactly its
    rows whatever is called. *)
Lemma mark_attendance_keeps clk i date time db i' d' :
  records_for i' d' db ≠ [] →
  records_for i' d' (mark_attendance clk i date time db).2
  = records_for i' d' db.
Proof.
  intros Hne.
  destruct (decide ((i', d') = (i, default (now_date clk) date)))
    as [[= -> ->]|Hk]; [|by apply mark_attendance_other].
  destruct (mark_attendance clk i date time db).1 eqn:E.
  - apply mark_attendance_true, insert_attendance_Ok in E.
    by destruct E as (_ & E & _).
  - apply mark_attendance_false in E. by rewrite E.
Qed.

Lemma add_user_attendance clk roll nm db :
  attendance (add_user clk roll nm db).2 = attendance db.
Proof.
  unfold add_user, insert_user.
  destruct (conn_open db); simpl; [|done].
  case_bool_decide; done.
Qed.

Lemma run_call_keeps c db i d :
  records_for i d db ≠ [] →
  records_for i d (run_call db c) = records_for i d db.
Proof.
  intros Hne. destruct c as [[]| | | |]; simpl; try done.
  - unfold records_for. by rewrite add_user_attendance.
  - by apply mark_attendance_keeps.
Qed.

Lemma run_calls_keeps cs db i d :
  records_for i d db ≠ [] →
  records_for i d (run_calls db cs) = records_for i d db.
Proof.
  revert db. induction cs as [|c cs IH]; intros db Hne; [done|].
  unfold run_calls in *; simpl.
  rewrite IH; rewrite run_call_keeps; done.
Qed.

Lemma mark_attendance_unique clk i date time db :
  unique_keys db → unique_keys (mark_attendance clk i date time db).2.
Proof.
  intros Hu i' d'.
  destruct (decide (records_for i' d' db = [])) as [Hnil|Hne].
  - destruct (decide ((i', d') = (i, default (now_date clk) date)))
      as [[= -> ->]|Hk].
    + destruct (mark_attendance clk i date time db).1 eqn:E.
      * apply mark_attendance_true, insert_attendance_Ok in E.
        destruct E as (_ & _ & _ & _ & E & _).
        unfold stored_times in E.
        apply (f_equal length) in E. rewrite length_fmap in E.
        rewrite E. simpl. lia.
      * apply mark_attendance_false in E. rewrite E. apply Hu.
    + rewrite mark_attendance_other by done. apply Hu.
  - rewrite mark_attendance_keeps by done. apply Hu.
Qed.

Lemma run_call_unique c db : unique_keys db → unique_keys (run_call db c).
Proof.
  intros Hu. destruct c as [[]| | | |]; simpl; try done.
  - intros i d. unfold records_for. rewrite add_user_attendance. apply Hu.
  - by apply mark_attendance_unique.
Qed.

Lemma run_calls_unique cs db :
  unique_keys db → unique_keys (run_calls db cs).
Proof.
  revert db. induction cs as [|c cs IH]; intros db Hu; [done|].
  apply IH. by apply run_call_unique.
Qed.

Lemma new_database_unique : unique_keys new_database.
Proof. intros i d. simpl. lia. Qed.
End ledger.

(** C1. Whatever calls are made on a fresh database, in whatever order and
    with whatever times, table [attendance] never holds two rows with the
    same [(user_id, date)]. *)
Theorem attendance_unique_per_user_and_date
    (cs : list db_call) (i : Z) (d : string) :
  (length (records_for i d (run_calls new_database cs)) ≤ 1)%nat.
Proof. apply run_calls_unique, new_database_unique. Qed.

(** C2. On a usable connection, the first [mark_attendance] for a pair
    [(user_id, date)] returns [True] and stores its time; after any further
    calls on the database, a [mark_attendance] for the same pair returns
    [False], changes nothing, and the stored time is still the first one. *)
Theorem mark_attendance_idempotent
    (clk : clock) (i : Z) (date time : option string)
    (db : AttendanceDatabase) :
  conn_open db = true →
  has_record i (default (now_date clk) date) db = false →
  let d := default (now_date clk) date in
  let t := default (now_time clk) time in
  let first := mark_attendance clk i date time db in
  first.1 = true ∧
  stored_times i d first.2 = [t] ∧
  ∀ (cs : list db_call) (clk' : clock) (date' time' : option string),
    default (now_date clk') date' = d →
    let db' := run_calls first.2 cs in
    let again := mark_attendance clk' i date' time' db' in
    again.1 = false ∧ again.2 = db' ∧ stored_times i d again.2 = [t].
Proof.
  intros Hc Hr d t first.
  pose proof (mark_attendance_first clk i date time db Hc Hr) as Hfirst.
  pose proof (mark_attendance_true _ _ _ _ _ Hfirst) as Hins.
  apply insert_attendance_Ok in Hins.
  destruct Hins as (_ & _ & _ & _ & Hst & _).
  split; [done|]. split; [done|].
  intros cs clk' date' time' Hd db' again.
  assert (Hne : records_for i d first.2 ≠ []).
  { intros Hnil. unfold stored_times in Hst.
    fold first d t in Hst. by rewrite Hnil in Hst. }
  assert (Hkeep : records_for i d db' = records_for i d first.2)
    by (by apply run_calls_keeps).
  assert (Hfalse : again.1 = false).
  { subst again. unfold mark_attendance, insert_attendance.
    rewrite Hd. destruct (conn_open db'); simpl; [|done].
    assert (has_record i d db' = true) as ->; [|done].
    apply has_record_true. by rewrite Hkeep. }
  split; [done|].
  apply mark_attendance_false in Hfalse. fold again in Hfalse.
  split; [done|].
  rewrite Hfalse. unfold stored_times. rewrite Hkeep. exact Hst.
Qed.

Lemma mark_attendance_idempotent_witness :
  (mark_attendance (clock_at "2024-01-10" "09:00:00") 1 None None
     enrolled_db).1 = true ∧
  stored_times 1 "2024-01-10" recorded_db = ["09:00:00"%string] ∧
  (mark_attendance (clock_at "2024-01-10" "17:30:00") 1 None None
     (run_calls recorded_db
        [CallMarkAttendance (clock_at "2024-01-10" "09:10:00") 2 None None;
         CallClose; CallConnect true])).1 = false.
Proof.
  pose proof (mark_attendance_idempotent
                (clock_at "2024-01-10" "09:00:00") 1 None None enrolled_db
                eq_refl eq_refl) as (H1 & H2 & H3).
  split; [exact H1|]. split; [exact H2|].
  exact (proj1 (H3 [CallMarkAttendance (clock_at "2024-01-10" "09:10:00") 2
                      None None; CallClose; CallConnect true]
                   (clock_at "2024-01-10" "17:30:00") None None eq_refl)).
Defined.

(** C9 as stated fails: no reading of the returned value tells the caller
    whether the insert hit the uniqueness constraint or a storage fault:
    both come back as [False]. *)
Lemma mark_attendance_hides_error_kind :
  ¬ ∃ kind_of : bool → sqlite_error,
      ∀ clk i d t db e,
        insert_attendance clk i d t db = Raise e →
        kind_of (mark_attendance clk i (Some d) (Some t) db).1 = e.
Proof.
  intros [kind_of H].
  pose proof (H (clock_at "2024-01-10" "17:30:00") 1 "2024-01-10"%string
                "17:30:00"%string recorded_db IntegrityError eq_refl) as H1.
  pose proof (H (clock_at "2024-01-10" "17:30:00") 1 "2024-01-10"%string
                "17:30:00"%string (close enrolled_db) ProgrammingError
                eq_refl) as H2.
  simpl in H1, H2. congruence.
Qed.

Lemma mark_attendance_under_NoFault clk i date time
    (db0 : AttendanceDatabase) :
  mark_attendance_under NoFault clk i date time db0
  = mark_attendance clk i date time db0.
Proof.
  unfold mark_attendance_under, mark_attendance, insert_and_commit,
    insert_attendance.
  destruct (conn_open db0); simpl; [|done].
  by destruct (has_record _ _ _).
Qed.

(** C9, amended. No error leaves [mark_attendance] as an exception, and
    every one of them comes back as [False]: the uniqueness violation, with
    the store unchanged, and just as well a storage fault, whichever it is:
    a closed connection or an [execute] that fails, with the store
    unchanged, or a [commit] that fails, after which the row is gone if
    SQLite rolled back and otherwise still there on the connection, since
    no [except] clause rolls back. [True] is returned exactly when insert
    and commit both went through. *)
Theorem mark_attendance_catches_errors
    (fault : storage_fault) (clk : clock) (i : Z)
    (date time : option string) (db0 : AttendanceDatabase) :
  let d := default (now_date clk) date in
  let t := default (now_time clk) time in
  let body := insert_and_commit fault clk i d t db0 in
  let call := mark_attendance_under fault clk i date time db0 in
  (call.1 = true ↔ body.1 = Ok tt) ∧
  (∀ e, body.1 = Raise e → call.1 = false) ∧
  (body.1 = Raise IntegrityError ↔
   conn_open db0 = true ∧ fault ≠ ExecuteFault ∧
   has_record i d db0 = true) ∧
  (body.1 = Raise IntegrityError → call = (false, db0)) ∧
  (conn_open db0 = false ∨ fault = ExecuteFault → call = (false, db0)) ∧
  (∀ rolled_back,
     fault = CommitFault rolled_back →
     conn_open db0 = true → has_record i d db0 = false →
     call.1 = false ∧
     stored_times i d call.2 = if rolled_back then [] else [t]) ∧
  (fault = NoFault → call = mark_attendance clk i date time db0) ∧
  (∀ e, insert_attendance clk i d t db0 = Raise e →
     mark_attendance clk i date time db0 = (false, db0) ∧
     (e = IntegrityError ↔
      conn_open db0 = true ∧ has_record i d db0 = true)).
Proof.
  intros d t body call. subst body call.
  unfold mark_attendance_under, insert_and_commit, mark_attendance.
  fold d t.
  destruct (conn_open db0) eqn:Hc; simpl.
  - destruct (insert_attendance clk i d t db0) as [db'|e] eqn:E.
    + pose proof (insert_attendance_Ok _ _ _ _ _ _ E)
        as (_ & Hnil & _ & _ & Hst & _).
      apply has_record_false in Hnil.
      destruct fault as [| |rb]; simpl; rewrite Hnil; split_and!;
        try done; try (by intros []); try (by intros ? [= <-]);
        try (split; [done|by intros (_ & _ & ?)]).
      intros rb' [= <-] _ _. split; [done|].
      destruct rb; [|done].
      unfold stored_times. by apply has_record_false in Hnil as ->.
    + pose proof (insert_attendance_Raise _ _ _ _ _ _ E)
        as [[_ ?]|(-> & _ & Hr)]; [congruence|].
      destruct fault as [| |rb]; simpl; rewrite Hr; split_and!;
        try done; try (by intros []); try (by intros ? [= <-]);
        try (by intros [?|?]);
        try (split; [done|by intros (_ & ? & _)]).
  - assert (insert_attendance clk i d t db0 = Raise ProgrammingError) as E
      by (unfold insert_attendance; by rewrite Hc).
    rewrite E. split_and!; try done; try (by intros ? [= <-]);
      try (split; [done|by intros (? & _)]).
    intros e [= <-]. split; [done|]. split; [done|by intros (? & _)].
Qed.

Lemma mark_attendance_catches_errors_witness :
  mark_attendance_under NoFault (clock_at "2024-01-10" "17:30:00") 1 None
    None recorded_db = (false, recorded_db) ∧
  mark_attendance_under ExecuteFault (clock_at "2024-01-10" "17:30:00") 2
    None None recorded_db = (false, recorded_db) ∧
  (mark_attendance_under (CommitFault false)
     (clock_at "2024-01-10" "17:30:00") 2 None None recorded_db).1 = false ∧
  stored_times 2 "2024-01-10"
    (mark_attendance_under (CommitFault false)
       (clock_at "2024-01-10" "17:30:00") 2 None None recorded_db).2
  = ["17:30:00"%string] ∧
  mark_attendance (clock_at "2024-01-10" "17:30:00") 1 None None
    (close enrolled_db) = (false, close enrolled_db).
Proof.
  split; [|split; [|split; [|split]]].
  - exact (proj1 (proj2 (proj2 (proj2
             (mark_attendance_catches_errors NoFault
                (clock_at "2024-01-10" "17:30:00") 1 None None
                recorded_db)))) eq_refl).
  - exact (proj1 (proj2 (proj2 (proj2 (proj2
             (mark_attendance_catches_errors ExecuteFault
                (clock_at "2024-01-10" "17:30:00") 2 None None
                recorded_db))))) (or_intror eq_refl)).
  - exact (proj1 (proj2
             (mark_attendance_catches_errors (CommitFault false)
                (clock_at "2024-01-10" "17:30:00") 2 None None
                recorded_db)) OperationalError eq_refl).
  - exact (proj2 (proj1 (proj2 (proj2 (proj2 (proj2 (proj2
             (mark_attendance_catches_errors (CommitFault false)
                (clock_at "2024-01-10" "17:30:00") 2 None None
                recorded_db))))))
             false eq_refl eq_refl eq_refl)).
  - exact (proj1 (proj2 (proj2 (proj2 (proj2 (proj2 (proj2 (proj2
             (mark_attendance_catches_errors NoFault
                (clock_at "2024-01-10" "17:30:00") 1 None None
                (close enrolled_db))))))))
             ProgrammingError eq_refl)).
Defined.

(** ** The two ordered queries *)

#[global] Instance by_time_total : Total by_time.
Proof. intros x y. unfold by_time. apply total, _. Qed.

#[global] Instance by_time_trans : Transitive by_time.
Proof. intros x y z. unfold by_time. apply transitivity. Qed.

#[global] Instance by_date_desc_time_desc_total :
  Total by_date_desc_time_desc.
Proof.
  intros x y. unfold by_date_desc_time_desc.
  destruct (decide (a_date x.1 = a_date y.1)) as [E|N].
  - rewrite E.
    destruct (total String.le (a_time y.1) (a_time x.1)); [left|right];
      split; done.
  - destruct (total String.le (a_date y.1) (a_date x.1)); [left|right];
      split; try done; intros ?; congruence.
Qed.

#[global] Instance by_date_desc_time_desc_trans :
  Transitive by_date_desc_time_desc.
Proof.
  intros x y z [Hxy Txy] [Hyz Tyz]. split; [by etrans|].
  intros E. rewrite E in Hxy.
  assert (a_date y.1 = a_date z.1) as E' by (by apply (anti_symm String.le)).
  etrans; [apply Tyz | apply Txy]; congruence.
Qed.

(** The join pairs each attendance row with the user it refers to. *)
Lemma elem_of_attendance_join_users db (a : attendance_row) (u : user_row) :
  (a, u) ∈ attendance_join_users db ↔
  a ∈ attendance db ∧ u ∈ users db ∧ u_id u = a_user_id a.
Proof.
  unfold attendance_join_users. rewrite list_elem_of_bind. split.
  - intros (a' & Hin & Ha). apply list_elem_of_bind in Hin.
    destruct Hin as (u' & Hin & Hu).
    apply list_elem_of_singleton in Hin. simplify_eq.
    apply list_elem_of_filter in Hu. destruct Hu. done.
  - intros (Ha & Hu & E). exists a. split; [|done].
    apply list_elem_of_bind. exists u. split; [by left|].
    by apply list_elem_of_filter.
Qed.



(** ** The decision on a face *)

Lemma float_lt_Finite (q t : Q) : float_lt (Finite q) t = true ↔ (q < t)%Q.
Proof.
  simpl. rewrite negb_true_iff, <- not_true_iff_false, Qle_bool_iff.
  split; [apply Qnot_le_lt | apply Qlt_not_le].
Qed.

Lemma float_lt_Qeq (q1 q2 t1 t2 : Q) :
  (q1 == q2)%Q → (t1 == t2)%Q →
  float_lt (Finite q1) t1 = float_lt (Finite q2) t2.
Proof.
  intros Hq Ht. apply eq_true_iff_eq.
  rewrite !float_lt_Finite, Hq, Ht. done.
Qed.

Lemma decide_face_accepted directory threshold (l : Z) score :
  (∃ info, decide_face directory threshold l score = Accepted l info) ↔
  is_Some (directory !! l) ∧ float_lt score threshold = true.
Proof.
  unfold decide_face. destruct (float_lt score threshold).
  - destruct (directory !! l) as [info|]; split.
    + intros _. split; [by exists info|done].
    + intros _. by exists info.
    + by intros [? ?].
    + by intros [[? ?] _].
  - split; [by intros [? ?]|by intros [_ ?]].
Qed.

(** In the loop body, a face is treated as recognized exactly when the
    decision on it is [Accepted]. *)
Lemma process_face_recognized (st : session) (f : face) :
  (∃ tl, trace (process_face st f)
         = (trace st ++ ShowRecognized (label f) :: tl)%list) ↔
  ∃ info, decide_face (label_map (sys st)) (recognition_threshold (sys st))
            (label f) (confidence f) = Accepted (label f) info.
Proof.
  unfold process_face, decide_face.
  destruct (float_lt _ _); simpl.
  - destruct (label_map (sys st) !! label f) as [info|]; simpl.
    + split; [intros _; by exists info|intros _].
      destruct (already_marked _ _); simpl; [by exists []|].
      destruct (mark_attendance _ _ _ _ _) as [[] db']; simpl; eauto.
    + split; [|by intros [? ?]]. intros [tl E].
      apply (f_equal length) in E. rewrite length_app in E. simpl in E. lia.
  - split; [|by intros [? ?]]. intros [tl E].
    apply app_inv_head in E. discriminate.
Qed.

(** C3. A face is [Accepted] if and only if its label is in the label map
    and its score is strictly below the threshold; a score equal to the
    threshold is rejected; the decision depends on nothing but the label,
    the score and the threshold (as numbers) and the label map, and it is
    the test the loop body branches on. *)
Theorem decision_accepts_known_label_below_threshold
    (directory : gmap Z user_info) (threshold : Q) (l : Z) :
  (∀ score,
     (∃ info, decide_face directory threshold l score = Accepted l info) ↔
     is_Some (directory !! l) ∧ float_lt score threshold = true) ∧
  (∀ q : Q,
     (∃ info, decide_face directory threshold l (Finite q) = Accepted l info)
     ↔ is_Some (directory !! l) ∧ (q < threshold)%Q) ∧
  (∀ score, float_eq score threshold = true →
     decide_face directory threshold l score = Rejected TooFar) ∧
  (∀ q1 q2 t2, (q1 == q2)%Q → (threshold == t2)%Q →
     decide_face directory threshold l (Finite q1)
     = decide_face directory t2 l (Finite q2)) ∧
  (∀ st f,
     label_map (sys st) = directory →
     recognition_threshold (sys st) = threshold →
     label f = l →
     ((∃ tl, trace (process_face st f)
             = (trace st ++ ShowRecognized l :: tl)%list) ↔
      ∃ info, decide_face directory threshold l (confidence f)
              = Accepted l info)).
Proof.
  split; [intros; apply decide_face_accepted|].
  split; [intros q; by rewrite decide_face_accepted, float_lt_Finite|].
  split; [|split].
  - intros [q| | |] Heq; try done. simpl in Heq.
    apply Qeq_bool_iff in Heq. unfold decide_face.
    assert (float_lt (Finite q) threshold = false) as ->; [|done].
    apply not_true_iff_false. rewrite float_lt_Finite, Heq.
    apply Qlt_irrefl.
  - intros q1 q2 t2 Hq Ht. unfold decide_face.
    by rewrite (float_lt_Qeq q1 q2 threshold t2).
  - intros st f <- <- <-. apply process_face_recognized.
Qed.

Lemma decision_accepts_known_label_below_threshold_witness :
  decide_face {[ 1 := alice_info ]} 70 1 (Finite 70) = Rejected TooFar ∧
  ∃ info, decide_face {[ 1 := alice_info ]} 70 1 (Finite 45)
          = Accepted 1 info.
Proof.
  destruct (decision_accepts_known_label_below_threshold
              {[ 1 := alice_info ]} 70 1) as (_ & Hlt & Heq & _).
  split.
  - apply Heq. reflexivity.
  - apply Hlt. split; [by exists alice_info | reflexivity].
Defined.

(** ** Starting a session *)

Lemma load_recognizer_db w s : db (load_recognizer w s).2 = db s.
Proof. unfold load_recognizer. by destruct (model_file w). Qed.

Lemma load_recognizer_marked w s :
  marked_today (load_recognizer w s).2 = marked_today s.
Proof. unfold load_recognizer. by destruct (model_file w). Qed.

Lemma load_recognizer_ok w s :
  (load_recognizer w s).1 = true ↔ model_file w = TrainedModel.
Proof. unfold load_recognizer. by destruct (model_file w). Qed.

Lemma initialize_Running w s st :
  initialize w s = Running st →
  model_file w = TrainedModel ∧ camera_opens w = true ∧
  db (sys st) = db s ∧ marked_today (sys st) = ∅ ∧
  today st = now_date (start_clock w) ∧ trace st = [OpenCamera].
Proof.
  unfold initialize.
  pose proof (load_recognizer_ok w s) as Hok.
  pose proof (load_recognizer_db w s) as Hdb.
  destruct (load_recognizer w s) as [[] s1]; simpl in *; [|done].
  destruct (camera_opens w); simpl; [|done].
  intros [= <-]; simpl. repeat split; try done. by apply Hok.
Qed.

(** C6 as stated fails: [self.marked_today = set()] is not the first
    statement of [start_attendance] but comes after its two early returns.
    A call that returns early, here because the camera does not open, sees
    no face and still leaves Alice in the cache, where the session before
    had put her. *)
Lemma early_return_keeps_old_cache :
  ¬ ∀ w s i,
      frames w = [] → already_marked (start_attendance w s).1 i = false.
Proof.
  intros H.
  specialize (H no_camera_world used_system 1 eq_refl).
  vm_compute in H. discriminate.
Qed.

Lemma initialize_starts w s :
  model_file w = TrainedModel → camera_opens w = true →
  ∃ st, initialize w s = Running st.
Proof.
  intros Hm Hc. unfold initialize, load_recognizer.
  rewrite Hm. simpl. rewrite Hc. simpl. eauto.
Qed.

Lemma start_attendance_early_return w s :
  model_file w ≠ TrainedModel ∨ camera_opens w = false →
  marked_today (start_attendance w s).1 = marked_today s ∧
  db (start_attendance w s).1 = db s.
Proof.
  intros Hno. unfold start_attendance, initialize.
  pose proof (load_recognizer_ok w s) as Hok.
  pose proof (load_recognizer_db w s) as Hdb.
  pose proof (load_recognizer_marked w s) as Hmk.
  destruct (load_recognizer w s) as [[] s1]; simpl in *; [|done].
  destruct Hno as [Hno| ->]; [|done].
  destruct Hno. by apply Hok.
Qed.

(** C8 as stated fails: with a trained model on disk and no user in the
    store, [load_recognizer] returns [True] and the camera is opened. *)
Lemma empty_directory_still_loads :
  ¬ ∀ w s,
      model_file w = NoFile ∨ users (db s) = [] →
      (load_recognizer w s).1 = false ∧
      OpenCamera ∉ (start_attendance w s).2.
Proof.
  intros H.
  destruct (H idle_world (new_system new_database) (or_intror eq_refl))
    as [H1 _].
  discriminate H1.
Qed.

(** C8, amended. If there is no trained model (the file is missing, or
    reading it raises), [load_recognizer] returns [False] and
    [start_attendance] returns without opening the camera, without touching
    the store or the cache, and without raising. With a trained model,
    [load_recognizer] returns [True] even when no user is enrolled: the label
    map is then empty. *)
Theorem missing_model_refuses_session (w : world) (s : AttendanceSystem) :
  (model_file w ≠ TrainedModel →
   (load_recognizer w s).1 = false ∧
   (start_attendance w s).2 = [] ∧
   db (start_attendance w s).1 = db s ∧
   marked_today (start_attendance w s).1 = marked_today s) ∧
  (model_file w = TrainedModel →
   (load_recognizer w s).1 = true ∧
   (get_all_users (db s) = [] → label_map (load_recognizer w s).2 = ∅)).
Proof.
  split.
  - intros Hm. unfold start_attendance, initialize.
    pose proof (load_recognizer_db w s) as Hdb.
    pose proof (load_recognizer_marked w s) as Hmk.
    pose proof (load_recognizer_ok w s) as Hok.
    destruct (load_recognizer w s) as [[] s1]; simpl in *; [|done].
    destruct Hm. by apply Hok.
  - intros Hm. split; [by apply load_recognizer_ok|].
    intros Hu. unfold load_recognizer. rewrite Hm, Hu. done.
Qed.

Lemma missing_model_refuses_session_witness :
  (start_attendance
     {| model_file := NoFile; camera_opens := true;
        start_clock := clock_at "2024-01-10" "17:00:00";
        frames := frames evening_world |}
     used_system).2 = [] ∧
  (load_recognizer idle_world (new_system new_database)).1 = true.
Proof.
  split.
  - refine (proj1 (proj2 (proj1 (missing_model_refuses_session _ _) _))).
    discriminate.
  - exact (proj1 (proj2 (missing_model_refuses_session idle_world
                           (new_system new_database)) eq_refl)).
Defined.

(** ** The loop of a session *)

Lemma call_results_app l tr es :
  call_results l (tr ++ es) = (call_results l tr ++ call_results l es)%list.
Proof. apply omap_app. Qed.

Lemma process_face_step st f : face_step st f (process_face st f).
Proof.
  unfold process_face, decide_face.
  destruct (float_lt _ _) eqn:Hlt; simpl.
  - destruct (label_map (sys st) !! label f) as [info|] eqn:Hl; simpl.
    + unfold already_marked. case_bool_decide as Hm.
      * apply (step_quiet _ _ _ [ShowRecognized (label f)]); try done.
        intros l d ok Hin. apply list_elem_of_singleton in Hin. done.
      * apply (step_call _ _ _ info); try done;
          destruct (mark_attendance _ _ _ _ _) as [[] db']; done.
    + apply (step_quiet _ _ _ []); try done.
      * by rewrite app_nil_r.
      * intros l d ok Hin. by apply elem_of_nil in Hin.
  - apply (step_quiet _ _ _ [ShowUnknown]); try done.
    intros l d ok Hin. apply list_elem_of_singleton in Hin. done.
Qed.

Lemma process_face_fixed st f :
  label_map (sys (process_face st f)) = label_map (sys st) ∧
  recognition_threshold (sys (process_face st f))
  = recognition_threshold (sys st) ∧
  today (process_face st f) = today st.
Proof.
  unfold process_face.
  destruct (decide_face _ _ _ _) as [l info|[]]; try done.
  destruct (already_marked _ _); [done|].
  destruct (mark_attendance _ _ _ _ _) as [[] db']; done.
Qed.

Lemma quiet_call_results es l :
  (∀ l' d ok, LedgerCall l' d ok ∉ es) → call_results l es = [].
Proof.
  intros H. unfold call_results.
  induction es as [|e es IH]; [done|]. simpl.
  assert (call_result l e = None) as ->.
  { destruct e as [| |l0 d0 ok0| | | |]; try done.
    destruct (H l0 d0 ok0). by left. }
  apply IH. intros l' d ok Hin. apply (H l' d ok). by right.
Qed.

Lemma call_call_results l l' d ok e1 e3 :
  (∀ l0 d0 ok0, e1 ≠ LedgerCall l0 d0 ok0) →
  (∀ l0 d0 ok0, e3 ≠ LedgerCall l0 d0 ok0) →
  call_results l [e1; LedgerCall l' d ok; e3]
  = if bool_decide (l' = l) then [ok] else [].
Proof.
  intros H1 H3. unfold call_results. simpl.
  assert (call_result l e1 = None) as ->.
  { destruct e1 as [| |l0 d0 ok0| | | |]; try done. by destruct (H1 l0 d0 ok0). }
  assert (call_result l e3 = None) as ->.
  { destruct e3 as [| |l0 d0 ok0| | | |]; try done. by destruct (H3 l0 d0 ok0). }
  by case_bool_decide.
Qed.

(** Induction over the faces of a frame and over the frames of a session. *)
Section session_invariant.
Variable P : session → Prop.
Variable good : face → Prop.
Hypothesis P_frame_count :
  ∀ st n, P st →
    P {| sys := sys st; today := today st; frame_count := n;
         trace := trace st |}.
Hypothesis P_face : ∀ st f, good f → P st → P (process_face st f).

Lemma faces_invariant (fs : list face) (st : session) :
  Forall good fs → P st → P (foldl process_face st fs).
Proof.
  revert st. induction fs as [|f fs IH]; intros st Hg HP; [done|].
  inversion Hg; subst. simpl. apply IH; [done|]. by apply P_face.
Qed.

Lemma frames_invariant (frs : list frame) (st : session) :
  Forall (λ fr, Forall good (faces fr)) frs → P st → P (run_frames frs st).
Proof.
  revert st. induction frs as [|fr frs IH]; intros st Hg HP; [done|].
  inversion Hg; subst. simpl.
  destruct (ret fr); simpl; [|done].
  assert (P (foldl process_face
               {| sys := sys st; today := today st;
                  frame_count := S (frame_count st); trace := trace st |}
               (faces fr))) as HP'.
  { apply faces_invariant; [done|]. by apply P_frame_count. }
  destruct (quit_key fr); [done|]. by apply IH.
Qed.
End session_invariant.

(** *** Calls of the ledger in a session *)

Lemma process_face_results (l : Z) (st : session) (f : face) :
  results_invariant l st → results_invariant l (process_face st f).
Proof.
  unfold results_invariant. intros [n Hinv].
  destruct (process_face_step st f) as [es Hs Ht Hq|info _ _ Hm r Hdb Hmk Ht].
  - rewrite Hs, Ht, call_results_app, (quiet_call_results es l Hq), app_nil_r.
    by exists n.
  - rewrite Ht, call_results_app, call_call_results, Hmk
      by (intros; destruct (r.1); done).
    case_bool_decide as Hl.
    + subst l. destruct Hinv as [Hinv|[Hin _]]; [|done]. rewrite Hinv.
      destruct (r.1).
      * exists n. right. split; [|done].
        apply elem_of_union_r. by apply elem_of_singleton.
      * exists (S n). left. by rewrite replicate_S_end.
    + rewrite app_nil_r. exists n.
      destruct Hinv as [Hinv|[Hin Hinv]]; [by left|right].
      split; [|done]. destruct (r.1); [by apply elem_of_union_l|done].
Qed.

Lemma process_face_single_call (l : Z) (db0 : AttendanceDatabase)
    (st : session) (f : face) :
  (label f = l → has_record l (now_date (face_clock f)) db0 = false) →
  single_call_invariant l db0 st →
  single_call_invariant l db0 (process_face st f).
Proof.
  unfold single_call_invariant. intros Hgood (Hc & Hle & Hout). unfold ledger_calls in *.
  destruct (process_face_step st f) as [es Hs Ht Hq|info _ _ Hm r Hdb Hmk Ht].
  - rewrite Hs, Ht, call_results_app, (quiet_call_results es l Hq), app_nil_r.
    done.
  - rewrite Ht, call_results_app, call_call_results, Hmk, Hdb
      by (intros; destruct (r.1); done).
    subst r. rewrite mark_attendance_conn. split; [done|].
    case_bool_decide as Hl.
    + subst l. destruct (Hout Hm) as [H0 Hrec].
      assert ((mark_attendance (face_clock f) (label f) None None
                 (db (sys st))).1 = true) as ->.
      { apply mark_attendance_first; [done|]. simpl.
        apply has_record_false. rewrite Hrec.
        apply has_record_false. by apply Hgood. }
      rewrite length_app, H0. simpl. split; [lia|].
      intros Hn. destruct Hn. apply elem_of_union_r. by apply elem_of_singleton.
    + rewrite app_nil_r. split; [done|]. intros Hnot.
      assert (l ∉ marked_today (sys st)) as Hnot'.
      { destruct (mark_attendance _ _ _ _ _).1; [|done].
        intros Hin. by apply Hnot, elem_of_union_l. }
      destruct (Hout Hnot') as [H0 Hrec]. split; [done|]. intros d.
      rewrite mark_attendance_other; [done|]. intros [= E _]. by apply Hl.
Qed.

(** C4 as stated fails: Alice was recorded in the morning; in the evening
    session she is seen in two frames and [mark_attendance] is called for
    her twice. *)
Lemma repeated_calls_after_prior_session :
  ¬ ∀ w s l, (ledger_calls l (start_attendance w s).2 ≤ 1)%nat.
Proof.
  intros H.
  pose proof (H evening_world (new_system recorded_db) 1) as H1.
  vm_compute in H1. lia.
Qed.

Lemma initialize_NotStarted w s s' tr :
  initialize w s = NotStarted s' tr → tr = [] ∨ tr = [OpenCamera].
Proof.
  unfold initialize. destruct (load_recognizer w s) as [[] s1]; simpl.
  - destruct (camera_opens w); simpl; [done|]. intros [= _ <-]. by right.
  - intros [= _ <-]. by left.
Qed.

(** C4, amended. In a session, the calls of [mark_attendance] for an
    identity are any number of calls that return [False] followed by at most
    one that returns [True]: one successful write at most, and no call once a
    call has succeeded. When the connection is usable and the identity has no
    record under the dates at which it is seen, at most one call is made for
    it, however many frames accept it. *)
Theorem one_successful_write_per_session
    (w : world) (s : AttendanceSystem) (l : Z) :
  failures_then_success (call_results l (start_attendance w s).2) ∧
  (conn_open (db s) = true →
   Forall (λ fr, Forall (λ f, label f = l →
                   has_record l (now_date (face_clock f)) (db s) = false)
                 (faces fr)) (frames w) →
   (ledger_calls l (start_attendance w s).2 ≤ 1)%nat).
Proof.
  unfold start_attendance.
  destruct (initialize w s) as [s' tr|st] eqn:Hinit.
  - apply initialize_NotStarted in Hinit. simpl. split.
    + exists 0%nat. left. by destruct Hinit as [-> | ->].
    + intros _ _. destruct Hinit as [-> | ->]; unfold ledger_calls; simpl; lia.
  - apply initialize_Running in Hinit.
    destruct Hinit as (_ & _ & Hdb & Hmk & _ & Htr). simpl. split.
    + assert (results_invariant l (run_frames (frames w) st)) as [n Hn].
      { apply (frames_invariant (results_invariant l) (λ _, True)).
        - done.
        - intros st0 f _. apply process_face_results.
        - apply Forall_forall. intros fr _. by apply Forall_forall.
        - exists 0%nat. left. by rewrite Htr. }
      rewrite call_results_app. simpl. rewrite app_nil_r.
      exists n. destruct Hn as [Hn|[_ Hn]]; [by left|by right].
    + intros Hc Hgood. unfold ledger_calls.
      rewrite call_results_app. simpl. rewrite app_nil_r.
      eapply (frames_invariant (single_call_invariant l (db s))).
      * done.
      * intros st0 f Hf. apply process_face_single_call, Hf.
      * exact Hgood.
      * unfold single_call_invariant, ledger_calls.
        rewrite Hdb, Htr. simpl. split; [done|]. split; [lia|]. done.
Qed.

Lemma one_successful_write_per_session_witness :
  (ledger_calls 1 (start_attendance evening_world
                     (new_system enrolled_db)).2 ≤ 1)%nat.
Proof.
  apply (one_successful_write_per_session evening_world
           (new_system enrolled_db) 1).
  - reflexivity.
  - repeat (constructor; try (intros _; reflexivity)).
Defined.

(** *** The cache after a call that returned [False] *)

Example second_session_reached :
  initialize evening_world (new_system recorded_db) = Running second_session.
Proof. reflexivity. Qed.





(** *** The cache and the ledger *)

Lemma mark_attendance_recorded clk i date time db0 :
  (mark_attendance clk i date time db0).1 = true →
  has_record i (default (now_date clk) date)
    (mark_attendance clk i date time db0).2 = true.
Proof.
  intros E. apply mark_attendance_true, insert_attendance_Ok in E.
  destruct E as (_ & _ & _ & _ & E & _).
  apply has_record_true. intros Hnil. unfold stored_times in E.
  by rewrite Hnil in E.
Qed.

Lemma mark_attendance_has_record clk i date time db0 i' d' :
  has_record i' d' db0 = true →
  has_record i' d' (mark_attendance clk i date time db0).2 = true.
Proof.
  rewrite !has_record_true. intros Hne.
  by rewrite mark_attendance_keeps.
Qed.

Lemma process_face_cache (D : Z → string → Prop) (st : session) (f : face) :
  D (label f) (now_date (face_clock f)) →
  cache_invariant D st → cache_invariant D (process_face st f).
Proof.
  unfold cache_invariant. intros HD Hinv l.
  destruct (process_face_step st f) as [es Hs Ht Hq|info _ _ Hm r Hdb Hmk Ht].
  - rewrite Hs. apply Hinv.
  - rewrite Hmk, Hdb. subst r.
    destruct (mark_attendance _ _ _ _ _).1 eqn:E.
    + intros [Hin|Hin]%elem_of_union.
      * destruct (Hinv l Hin) as (d & Hd & Hrec). exists d.
        split; [done|]. by apply mark_attendance_has_record.
      * apply elem_of_singleton in Hin. subst l.
        exists (now_date (face_clock f)). split; [done|].
        by apply (mark_attendance_recorded _ _ None None).
    + apply mark_attendance_false in E. rewrite E. apply Hinv.
Qed.

Lemma run_frames_cache (D : Z → string → Prop) (fs : list frame)
    (st : session) :
  Forall (λ fr, Forall (λ f, D (label f) (now_date (face_clock f)))
                  (faces fr)) fs →
  cache_invariant D st → cache_invariant D (run_frames fs st).
Proof.
  apply (frames_invariant (cache_invariant D)
           (λ f, D (label f) (now_date (face_clock f)))).
  - done.
  - intros st0 f. apply process_face_cache.
Qed.

(** C6, amended. When [start_attendance] gets past its two early returns,
    that is when the trained model loads and the camera opens, the loop is
    entered with [marked_today] empty: no identity is in it, whatever the
    set held when the call began and whatever the attendance table holds,
    which the start does not touch; and an identity that is in the set when
    the call returns was put there for a face of this call, whose row is in
    the table. A call that returns early, for lack of a model or of a
    camera, does not reset the set: it leaves set and store as they were. *)
Theorem session_starts_with_empty_cache
    (w : world) (s : AttendanceSystem) :
  (model_file w = TrainedModel → camera_opens w = true →
   ∃ st, initialize w s = Running st ∧
         (start_attendance w s).1 = sys (run_frames (frames w) st) ∧
         marked_today (sys st) = ∅ ∧
         (∀ i, already_marked (sys st) i = false) ∧
         db (sys st) = db s ∧
         (∀ i, already_marked (start_attendance w s).1 i = true →
               ∃ fr f, fr ∈ frames w ∧ f ∈ faces fr ∧ label f = i ∧
                       has_record i (now_date (face_clock f))
                         (db (start_attendance w s).1) = true)) ∧
  (model_file w ≠ TrainedModel ∨ camera_opens w = false →
   marked_today (start_attendance w s).1 = marked_today s ∧
   db (start_attendance w s).1 = db s).
Proof.
  split; [|apply start_attendance_early_return].
  intros Hm Hc.
  destruct (initialize_starts w s Hm Hc) as [st Hst]. exists st.
  pose proof (initialize_Running _ _ _ Hst) as (_ & _ & Hdb & Hmk & _).
  assert ((start_attendance w s).1 = sys (run_frames (frames w) st))
    as Hrun by (unfold start_attendance; by rewrite Hst).
  split; [done|]. split; [done|]. split; [done|].
  split; [|split; [done|]].
  - intros i. unfold already_marked. rewrite Hmk.
    apply bool_decide_eq_false. apply not_elem_of_empty.
  - intros i Hi. rewrite Hrun. rewrite Hrun in Hi.
    apply bool_decide_eq_true in Hi.
    pose (D := λ (l : Z) (d : string),
            ∃ fr f, fr ∈ frames w ∧ f ∈ faces fr ∧ label f = l ∧
                    now_date (face_clock f) = d).
    destruct (run_frames_cache D (frames w) st) with (l := i)
      as (d & (fr & f & Hfr & Hf & Hl & Hd) & Hrec); try done.
    + apply Forall_forall. intros fr Hfr.
      apply Forall_forall. intros f Hf. by exists fr, f.
    + intros l. rewrite Hmk. intros Hin. by apply elem_of_empty in Hin.
    + exists fr, f. by rewrite Hd.
Qed.

Lemma session_starts_with_empty_cache_witness :
  already_marked used_system 1 = true ∧
  has_record 1 "2024-01-10" (db used_system) = true ∧
  (∃ st, initialize evening_world used_system = Running st ∧
         (start_attendance evening_world used_system).1
         = sys (run_frames (frames evening_world) st) ∧
         already_marked (sys st) 1 = false) ∧
  marked_today (start_attendance no_camera_world used_system).1
  = marked_today used_system.
Proof.
  split; [reflexivity|]. split; [reflexivity|]. split.
  - destruct (proj1 (session_starts_with_empty_cache evening_world
                       used_system) eq_refl eq_refl)
      as (st & Hst & Hrun & _ & Hno & _).
    exists st. split; [exact Hst|]. split; [exact Hrun|]. apply Hno.
  - exact (proj1 (proj2 (session_starts_with_empty_cache no_camera_world
                           used_system) (or_intror eq_refl))).
Defined.

(** C10 as stated fails: a session started on 2024-01-10 just before
    midnight that recognizes Alice just after it has her in the cache, with
    her record under 2024-01-11 and none under the date of the session. *)
Lemma cache_entry_dated_after_session_start :
  ¬ ∀ w s st,
      initialize w s = Running st →
      ∀ l, l ∈ marked_today (sys (run_frames (frames w) st)) →
           has_record l (today st) (db (sys (run_frames (frames w) st)))
           = true.
Proof.
  intros H.
  assert (1 ∈ marked_today
                (start_attendance midnight_world
                   (new_system enrolled_db)).1) as Hin.
  { apply (bool_decide_eq_true _). by vm_compute. }
  pose proof (H midnight_world (new_system enrolled_db) _ eq_refl 1 Hin)
    as Hrec.
  vm_compute in Hrec. discriminate.
Qed.

(** C10, amended. At every point of a session, every label in
    [marked_today] has a row in table [attendance] dated with the day the
    clock showed when one of its faces was processed; when no face of the
    session is processed on another day than the one the session began on,
    that is the date of the session. *)
Theorem cache_within_ledger
    (w : world) (s : AttendanceSystem) (st : session) (fs : list frame) :
  initialize w s = Running st →
  (∀ l, l ∈ marked_today (sys (run_frames fs st)) →
     ∃ fr f, fr ∈ fs ∧ f ∈ faces fr ∧ label f = l ∧
             has_record l (now_date (face_clock f))
               (db (sys (run_frames fs st))) = true) ∧
  (Forall (λ fr, Forall (λ f, now_date (face_clock f)
                              = now_date (start_clock w)) (faces fr)) fs →
   ∀ l, l ∈ marked_today (sys (run_frames fs st)) →
        has_record l (now_date (start_clock w))
          (db (sys (run_frames fs st))) = true).
Proof.
  intros Hinit. apply initialize_Running in Hinit.
  destruct Hinit as (_ & _ & _ & Hmk & _).
  assert (∀ D, cache_invariant D st) as Hstart.
  { intros D l. rewrite Hmk. intros Hin. by apply elem_of_empty in Hin. }
  split.
  - intros l Hin.
    pose (D := λ (l : Z) (d : string),
            ∃ fr f, fr ∈ fs ∧ f ∈ faces fr ∧ label f = l ∧
                    now_date (face_clock f) = d).
    destruct (run_frames_cache D fs st) with (l := l)
      as (d & (fr & f & Hfr & Hf & Hl & Hd) & Hrec); try done.
    + apply Forall_forall. intros fr Hfr.
      apply Forall_forall. intros f Hf. by exists fr, f.
    + exists fr, f. by rewrite Hd.
  - intros Hsame l Hin.
    destruct (run_frames_cache (λ _ d, d = now_date (start_clock w)) fs st)
      with (l := l) as (d & -> & Hrec); done.
Qed.

Lemma cache_within_ledger_witness :
  has_record 1 "2024-01-10"
    (db (sys (run_frames (frames evening_world)
                (Session
                   (System enrolled_db (Some Loaded)
                      {[ 1 := alice_info;
                         2 := {| roll_number := "R200"; name := "Bob" |} ]}
                      70 ∅)
                   "2024-01-10" 0 [OpenCamera])))) = true.
Proof.
  refine (proj2 (cache_within_ledger evening_world (new_system enrolled_db)
                   _ (frames evening_world) eq_refl) _ 1 _).
  - repeat (constructor; try reflexivity).
  - apply (bool_decide_eq_true _). vm_compute. reflexivity.
Defined.

(** ** The scenarios of the specification, run on the model *)

(** A: Alice (R100) is recognized with score 45 against threshold 70 on
    2024-01-10; one call, which succeeds, and one row for the day. *)
Example scenario_first_recognition :
  call_results 1 (start_attendance evening_world
                    (new_system enrolled_db)).2 = [true] ∧
  get_attendance_by_date (clock_at "2024-01-10" "18:00:00") None
    (db (start_attendance evening_world (new_system enrolled_db)).1)
  = [("Alice", "R100", "17:00:01", "Present")%string].
Proof. split; reflexivity. Qed.

(** B: the second recognition in the same session finds her in the cache;
    the trace holds a single call. *)
Example scenario_same_session :
  (start_attendance evening_world (new_system enrolled_db)).2
  = [OpenCamera;
     ShowRecognized 1; LedgerCall 1 "2024-01-10" true; ShowMarked 1;
     ShowRecognized 1;
     ReleaseCamera].
Proof. reflexivity. Qed.

(** C: in a later session of the same day the call is made and returns
    [False] (here once per frame), and the day still has one row. *)
Example scenario_later_session :
  call_results 1 (start_attendance evening_world
                    (new_system recorded_db)).2 = [false; false] ∧
  get_attendance_by_date (clock_at "2024-01-10" "18:00:00") None
    (db (start_attendance evening_world (new_system recorded_db)).1)
  = [("Alice", "R100", "09:00:00", "Present")%string].
Proof. split; reflexivity. Qed.

(** D: score 85 against threshold 70 is rejected, and the face leaves the
    ledger alone. *)
Example scenario_rejected :
  decide_face {[ 1 := alice_info ]} 70 1 (Finite 85) = Rejected TooFar ∧
  process_face second_session
    {| label := 1; confidence := Finite 85;
       face_clock := clock_at "2024-01-10" "17:00:01" |}
  = emit [ShowUnknown] second_session.
Proof. split; reflexivity. Qed.

(** * Further properties of the code *)

(** ** Table [users] *)

Lemma insert_user_Ok clk roll nm (db0 : AttendanceDatabase) i db' :
  insert_user clk roll nm db0 = Ok (i, db') →
  conn_open db0 = true ∧ (roll ∉ u_roll_number <$> users db0) ∧
  i = users_seq db0 + 1 ∧ users_seq db' = i ∧
  conn_open db' = true ∧ attendance db' = attendance db0 ∧
  attendance_seq db' = attendance_seq db0 ∧
  users db' = (users db0 ++
    [ {| u_id := i; u_roll_number := roll; u_name := nm;
         u_created_at := current_timestamp clk |} ])%list.
Proof.
  unfold insert_user. destruct (conn_open db0) eqn:Hc; simpl; [|done].
  case_bool_decide as Hr; [done|]. intros [= <- <-]. simpl. done.
Qed.

Lemma add_user_Some clk roll nm (db0 : AttendanceDatabase) i :
  (add_user clk roll nm db0).1 = Some i →
  insert_user clk roll nm db0 = Ok (i, (add_user clk roll nm db0).2).
Proof.
  unfold add_user.
  destruct (insert_user clk roll nm db0) as [[i' db']|[]]; simpl; try done.
  by intros [= ->].
Qed.

Lemma add_user_None clk roll nm (db0 : AttendanceDatabase) :
  (add_user clk roll nm db0).1 = None → (add_user clk roll nm db0).2 = db0.
Proof.
  unfold add_user.
  destruct (insert_user clk roll nm db0) as [[i' db']|[]]; simpl; done.
Qed.

Lemma add_user_fresh clk roll nm (db0 : AttendanceDatabase) :
  conn_open db0 = true → roll ∉ u_roll_number <$> users db0 →
  (add_user clk roll nm db0).1 = Some (users_seq db0 + 1).
Proof.
  intros Hc Hr. unfold add_user, insert_user. rewrite Hc. simpl.
  by rewrite bool_decide_eq_false_2.
Qed.

Lemma add_user_refused clk roll nm (db0 : AttendanceDatabase) :
  conn_open db0 = false ∨ roll ∈ u_roll_number <$> users db0 →
  add_user clk roll nm db0 = (None, db0).
Proof.
  intros H. unfold add_user, insert_user.
  destruct (conn_open db0); simpl; [|done].
  destruct H as [H|H]; [done|]. by rewrite bool_decide_eq_true_2.
Qed.

Lemma add_user_users_unique clk roll nm (db0 : AttendanceDatabase) :
  users_unique db0 → users_unique (add_user clk roll nm db0).2.
Proof.
  intros (Hr & Hi & Hb).
  destruct (add_user clk roll nm db0).1 as [i|] eqn:E.
  - apply add_user_Some, insert_user_Ok in E.
    destruct E as (_ & Hnew & -> & Hseq & _ & _ & _ & Hu).
    unfold users_unique. rewrite Hu, Hseq, !fmap_app. simpl.
    split; [|split].
    + apply NoDup_app. split; [done|]. split; [|apply NoDup_singleton].
      intros r Hin ->%list_elem_of_singleton. done.
    + apply NoDup_app. split; [done|]. split; [|apply NoDup_singleton].
      intros k Hin ->%list_elem_of_singleton.
      apply list_elem_of_fmap in Hin as (u & Hk & Hin).
      rewrite Forall_forall in Hb. specialize (Hb u Hin). lia.
    + apply Forall_app. split.
      * eapply Forall_impl; [exact Hb|]. simpl. intros u ?. lia.
      * apply Forall_singleton. simpl. lia.
  - apply add_user_None in E. rewrite E. done.
Qed.

Lemma run_call_users_unique c (db0 : AttendanceDatabase) :
  users_unique db0 → users_unique (run_call db0 c).
Proof.
  intros Hu. destruct c as [[]| |clk0 roll0 nm0|clk0 i0 d0 t0|]; simpl;
    try done.
  - by apply add_user_users_unique.
  - unfold users_unique in *. rewrite mark_attendance_users.
    destruct Hu as (? & ? & Hb). split; [done|]. split; [done|].
    destruct (mark_attendance clk0 i0 d0 t0 db0).1 eqn:E.
    + apply mark_attendance_true in E. unfold insert_attendance in E.
      destruct (conn_open db0); simpl in E; [|done].
      destruct (has_record _ _ _); [done|].
      injection E as E. by rewrite <- E.
    + apply mark_attendance_false in E. by rewrite E.
Qed.

Lemma run_calls_users_unique cs (db0 : AttendanceDatabase) :
  users_unique db0 → users_unique (run_calls db0 cs).
Proof.
  revert db0. induction cs as [|c cs IH]; intros db0 Hu; [done|].
  apply IH. by apply run_call_users_unique.
Qed.

(** X1. Whatever calls are made on a fresh database, no two users share a
    roll number and no two users share an id. *)
Theorem users_have_unique_roll_and_id (cs : list db_call) :
  NoDup (u_roll_number <$> users (run_calls new_database cs)) ∧
  NoDup (u_id <$> users (run_calls new_database cs)).
Proof.
  destruct (run_calls_users_unique cs new_database) as (? & ? & _); [|done].
  repeat split; simpl; try constructor.
Qed.

Lemma roll_enrolled_filter roll (us : list user_row) :
  filter (λ u, u_roll_number u = roll) us ≠ [] ↔
  roll ∈ u_roll_number <$> us.
Proof.
  split.
  - intros Hne. destruct (filter _ us) as [|u l] eqn:E; [done|].
    assert (u ∈ filter (λ u, u_roll_number u = roll) us) as Hin
      by (rewrite E; left).
    apply list_elem_of_filter in Hin as [<- Hin].
    apply list_elem_of_fmap. by exists u.
  - intros (u & -> & Hin)%list_elem_of_fmap Hnil.
    assert (u ∈ filter (λ u', u_roll_number u' = u_roll_number u) us) as Hf
      by (by apply list_elem_of_filter).
    rewrite Hnil in Hf. by apply elem_of_nil in Hf.
Qed.

Lemma run_call_keeps_user c (db0 : AttendanceDatabase) roll :
  roll ∈ u_roll_number <$> users db0 →
  filter (λ u, u_roll_number u = roll) (users (run_call db0 c))
  = filter (λ u, u_roll_number u = roll) (users db0).
Proof.
  intros Hin. destruct c as [[]| |clk0 roll0 nm0|clk0 i0 d0 t0|]; simpl;
    try done.
  - destruct (add_user clk0 roll0 nm0 db0).1 as [i|] eqn:E.
    + apply add_user_Some, insert_user_Ok in E.
      destruct E as (_ & Hnew & _ & _ & _ & _ & _ & ->).
      rewrite filter_app, filter_cons_False, filter_nil, app_nil_r; [done|].
      simpl. intros ->. done.
    + apply add_user_None in E. by rewrite E.
  - by rewrite mark_attendance_users.
Qed.

Lemma run_calls_keeps_user cs (db0 : AttendanceDatabase) roll :
  roll ∈ u_roll_number <$> users db0 →
  filter (λ u, u_roll_number u = roll) (users (run_calls db0 cs))
  = filter (λ u, u_roll_number u = roll) (users db0).
Proof.
  revert db0. induction cs as [|c cs IH]; intros db0 Hin; [done|].
  unfold run_calls in *. simpl.
  rewrite IH; [by apply run_call_keeps_user|].
  apply roll_enrolled_filter. rewrite run_call_keeps_user by done.
  by apply roll_enrolled_filter.
Qed.

(** X2. On a usable connection, [add_user] with a roll number not yet in
    the table returns the new id; from then on, after any further calls,
    [get_user_by_roll] (on a usable connection) returns that id with the
    roll number and the name first given, and another [add_user] with the
    same roll number returns [None] and changes nothing. *)
Theorem add_user_then_get_user_by_roll
    (clk : clock) (roll nm : string) (db0 : AttendanceDatabase) :
  conn_open db0 = true →
  roll ∉ u_roll_number <$> users db0 →
  (add_user clk roll nm db0).1 = Some (users_seq db0 + 1) ∧
  ∀ cs : list db_call,
    (conn_open (run_calls (add_user clk roll nm db0).2 cs) = true →
     get_user_by_roll roll (run_calls (add_user clk roll nm db0).2 cs)
     = Some (users_seq db0 + 1, roll, nm)) ∧
    ∀ clk' nm',
      add_user clk' roll nm' (run_calls (add_user clk roll nm db0).2 cs)
      = (None, run_calls (add_user clk roll nm db0).2 cs).
Proof.
  intros Hc Hfresh.
  pose proof (add_user_fresh clk roll nm db0 Hc Hfresh) as Hid.
  split; [done|]. intros cs.
  pose proof (add_user_Some _ _ _ _ _ Hid) as Hins.
  apply insert_user_Ok in Hins.
  destruct Hins as (_ & _ & _ & _ & _ & _ & _ & Hu).
  assert (filter (λ u, u_roll_number u = roll)
            (users (add_user clk roll nm db0).2)
          = [ {| u_id := users_seq db0 + 1; u_roll_number := roll;
                 u_name := nm; u_created_at := current_timestamp clk |} ])
    as Hf.
  { rewrite Hu, filter_app, filter_cons_True, filter_nil by done.
    assert (filter (λ u, u_roll_number u = roll) (users db0) = []) as ->;
      [|done].
    apply dec_stable. by rewrite roll_enrolled_filter. }
  assert (roll ∈ u_roll_number <$> users (add_user clk roll nm db0).2)
    as Hin by (apply roll_enrolled_filter; by rewrite Hf).
  pose proof (run_calls_keeps_user cs _ roll Hin) as Hkeep.
  split.
  - intros Hc'. unfold get_user_by_roll. rewrite Hc', Hkeep, Hf. done.
  - intros clk' nm'. apply add_user_refused. right.
    apply roll_enrolled_filter. rewrite Hkeep, Hf. done.
Qed.

Lemma add_user_then_get_user_by_roll_witness :
  (add_user (clock_at "2024-01-12" "08:00:00") "R300" "Carol"
     recorded_db).1 = Some 3 ∧
  get_user_by_roll "R300"
    (run_calls
       (add_user (clock_at "2024-01-12" "08:00:00") "R300" "Carol"
          recorded_db).2
       [CallAddUser (clock_at "2024-01-12" "08:10:00") "R300" "Dave";
        CallMarkAttendance (clock_at "2024-01-12" "09:00:00") 3 None None])
  = Some (3, "R300"%string, "Carol"%string).
Proof.
  assert (("R300"%string) ∉ u_roll_number <$> users recorded_db) as Hfresh.
  { apply (bool_decide_eq_false _). reflexivity. }
  pose proof (add_user_then_get_user_by_roll
                (clock_at "2024-01-12" "08:00:00") "R300" "Carol"
                recorded_db eq_refl Hfresh) as [H1 H2].
  split; [exact H1|].
  exact (proj1 (H2 [CallAddUser (clock_at "2024-01-12" "08:10:00") "R300"
                      "Dave";
                    CallMarkAttendance (clock_at "2024-01-12" "09:00:00") 3
                      None None]) eq_refl).
Defined.

(** X3. [get_user_by_roll] returns [None] exactly when the connection is
    closed or no user has the roll number; a tuple it returns carries the
    roll number asked for and is a row of the table. *)
Theorem get_user_by_roll_finds_enrolled
    (roll : string) (db0 : AttendanceDatabase) :
  (get_user_by_roll roll db0 = None ↔
   conn_open db0 = false ∨ roll ∉ u_roll_number <$> users db0) ∧
  (∀ i r n, get_user_by_roll roll db0 = Some (i, r, n) →
     r = roll ∧
     ∃ u, u ∈ users db0 ∧ u_id u = i ∧ u_roll_number u = roll ∧
          u_name u = n).
Proof.
  unfold get_user_by_roll. destruct (conn_open db0); simpl.
  - pose proof (roll_enrolled_filter roll (users db0)) as Hiff.
    destruct (filter (λ u, u_roll_number u = roll) (users db0))
      as [|u l] eqn:E; simpl.
    + split; [|done]. split; [|done]. intros _. right.
      intros Hin. apply Hiff in Hin. done.
    + assert (u ∈ filter (λ u, u_roll_number u = roll) (users db0)) as Hin
        by (rewrite E; left).
      apply list_elem_of_filter in Hin as [Hr Hin].
      split.
      * split; [done|]. intros [?|Hn]; [done|].
        destruct Hn. by apply Hiff.
      * intros i r n [= <- <- <-]. split; [done|]. by exists u.
  - split; [|done]. split; [by left|done].
Qed.

Lemma get_user_by_roll_finds_enrolled_witness :
  get_user_by_roll "R999" enrolled_db = None ∧
  ∃ u, u ∈ users enrolled_db ∧ u_id u = 2 ∧
       u_roll_number u = "R200"%string ∧ u_name u = "Bob"%string.
Proof.
  split.
  - apply (proj1 (get_user_by_roll_finds_enrolled "R999" enrolled_db)).
    right. apply (bool_decide_eq_false _). reflexivity.
  - exact (proj2 (proj2 (get_user_by_roll_finds_enrolled "R200" enrolled_db)
                    2 "R200"%string "Bob"%string eq_refl)).
Defined.

#[global] Instance by_user_name_total :
  Total (λ u1 u2 : user_row, String.le (u_name u1) (u_name u2)).
Proof. intros u1 u2. apply total, _. Qed.

#[global] Instance by_user_name_trans :
  Transitive (λ u1 u2 : user_row, String.le (u_name u1) (u_name u2)).
Proof. intros u1 u2 u3. apply transitivity. Qed.

Lemma get_all_users_Permutation (db0 : AttendanceDatabase) :
  conn_open db0 = true →
  get_all_users db0 ≡ₚ
    (λ u, (u_id u, u_roll_number u, u_name u)) <$> users db0.
Proof.
  intros Hc. unfold get_all_users. rewrite Hc. simpl.
  apply fmap_Permutation, merge_sort_Permutation.
Qed.

(** X4. [get_all_users] lists the users by ascending name; on a usable
    connection it lists every row of the table once, and on a closed one it
    returns the empty list. *)
Theorem get_all_users_sorted_by_name (db0 : AttendanceDatabase) :
  StronglySorted (λ r1 r2 : Z * string * string, String.le r1.2 r2.2)
    (get_all_users db0) ∧
  (conn_open db0 = true →
   get_all_users db0 ≡ₚ
     (λ u, (u_id u, u_roll_number u, u_name u)) <$> users db0) ∧
  (conn_open db0 = false → get_all_users db0 = []).
Proof.
  split; [|split; [apply get_all_users_Permutation|]].
  - unfold get_all_users. destruct (conn_open db0); simpl; [|constructor].
    apply (StronglySorted_fmap _
             (λ u1 u2 : user_row, String.le (u_name u1) (u_name u2)));
      [by intros|].
    apply StronglySorted_merge_sort; apply _.
  - intros Hc. unfold get_all_users. by rewrite Hc.
Qed.

Lemma get_all_users_sorted_by_name_witness :
  get_all_users enrolled_db ≡ₚ
    [(1, "R100"%string, "Alice"%string); (2, "R200"%string, "Bob"%string)] ∧
  get_all_users (close enrolled_db) = [].
Proof.
  split.
  - exact (proj1 (proj2 (get_all_users_sorted_by_name enrolled_db)) eq_refl).
  - exact (proj2 (proj2 (get_all_users_sorted_by_name (close enrolled_db)))
             eq_refl).
Defined.

(** ** Table [attendance]: counts, growth, the closed connection *)

Lemma insert_attendance_rows clk i d t (db0 db' : AttendanceDatabase) :
  insert_attendance clk i d t db0 = Ok db' →
  attendance db' = (attendance db0 ++
    [ {| a_id := attendance_seq db0 + 1; a_user_id := i; a_date := d;
         a_time := t; a_status := "Present"%string;
         a_created_at := current_timestamp clk |} ])%list.
Proof.
  unfold insert_attendance. destruct (conn_open db0); simpl; [|done].
  destruct (has_record i d db0); [done|]. by intros [= <-].
Qed.

Lemma filter_length_pos {A} (P : A → Prop) `{∀ x, Decision (P x)}
    (l : list A) (x : A) :
  x ∈ l → P x → (1 ≤ length (filter P l))%nat.
Proof.
  intros Hin HP. induction l as [|y l IH]; [by apply elem_of_nil in Hin|].
  apply elem_of_cons in Hin as [<-|Hin].
  - rewrite filter_cons_True by done. simpl. lia.
  - destruct (decide (P y)).
    + rewrite filter_cons_True by done. simpl. lia.
    + rewrite filter_cons_False by done. by apply IH.
Qed.

Lemma unique_keys_days_present (j : Z) (db0 : AttendanceDatabase) :
  unique_keys db0 → NoDup (days_present j db0).
Proof.
  unfold unique_keys, days_present, records_for.
  induction (attendance db0) as [|r l IH]; intros Hu; [constructor|].
  assert (NoDup (a_date <$> filter (λ r, a_user_id r = j) l)) as Hl.
  { apply IH. intros i d. specialize (Hu i d).
    destruct (decide (a_user_id r = i ∧ a_date r = d)).
    - rewrite filter_cons_True in Hu by done. simpl in Hu. lia.
    - by rewrite filter_cons_False in Hu. }
  destruct (decide (a_user_id r = j)) as [Hj|Hj].
  - rewrite filter_cons_True by done. simpl. constructor; [|done].
    intros (r' & Hd & Hin)%list_elem_of_fmap.
    apply list_elem_of_filter in Hin as [Hj' Hin].
    specialize (Hu j (a_date r)).
    rewrite filter_cons_True in Hu by done. simpl in Hu.
    pose proof (filter_length_pos
                  (λ r0, a_user_id r0 = j ∧ a_date r0 = a_date r) l r' Hin).
    assert (1 ≤ length (filter
                          (λ r0, a_user_id r0 = j ∧ a_date r0 = a_date r) l))%nat;
      [auto|lia].
  - by rewrite filter_cons_False.
Qed.

(** X5. The total [get_user_attendance_stats] reports is a number of
    distinct days: after any calls on a fresh database, the rows counted for
    a user all carry different dates. On a closed connection the total
    reported is 0. *)
Theorem attendance_stats_count_distinct_days (cs : list db_call) (j : Z) :
  NoDup (days_present j (run_calls new_database cs)) ∧
  (conn_open (run_calls new_database cs) = true →
   get_user_attendance_stats j (run_calls new_database cs)
   = Z.of_nat (length (days_present j (run_calls new_database cs)))) ∧
  (conn_open (run_calls new_database cs) = false →
   get_user_attendance_stats j (run_calls new_database cs) = 0).
Proof.
  split; [|split].
  - apply unique_keys_days_present, run_calls_unique, new_database_unique.
  - intros Hc. unfold get_user_attendance_stats, days_present.
    by rewrite Hc, length_fmap.
  - intros Hc. unfold get_user_attendance_stats. by rewrite Hc.
Qed.

Lemma attendance_stats_count_distinct_days_witness :
  get_user_attendance_stats 1
    (run_calls new_database
       [CallAddUser (clock_at "2024-01-09" "08:00:00") "R100" "Alice";
        CallMarkAttendance (clock_at "2024-01-10" "09:00:00") 1 None None;
        CallMarkAttendance (clock_at "2024-01-10" "17:00:00") 1 None None;
        CallMarkAttendance (clock_at "2024-01-11" "09:00:00") 1 None None])
  = 2.
Proof.
  exact (proj1 (proj2 (attendance_stats_count_distinct_days
    [CallAddUser (clock_at "2024-01-09" "08:00:00") "R100" "Alice";
     CallMarkAttendance (clock_at "2024-01-10" "09:00:00") 1 None None;
     CallMarkAttendance (clock_at "2024-01-10" "17:00:00") 1 None None;
     CallMarkAttendance (clock_at "2024-01-11" "09:00:00") 1 None None] 1))
    eq_refl).
Defined.

Lemma stats_after_mark_attendance
    (clk : clock) (i j : Z) (date time : option string)
    (db0 : AttendanceDatabase) :
  conn_open db0 = true →
  get_user_attendance_stats j (mark_attendance clk i date time db0).2
  = get_user_attendance_stats j db0 +
    (if (mark_attendance clk i date time db0).1 && bool_decide (i = j)
     then 1 else 0).
Proof.
  intros Hc. unfold get_user_attendance_stats.
  rewrite mark_attendance_conn, Hc. simpl.
  destruct (mark_attendance clk i date time db0).1 eqn:E; simpl.
  - apply mark_attendance_true, insert_attendance_rows in E. rewrite E.
    rewrite filter_app, length_app. case_bool_decide as Hij.
    + rewrite filter_cons_True by done. simpl. lia.
    + rewrite filter_cons_False by done. simpl. lia.
  - apply mark_attendance_false in E. rewrite E. lia.
Qed.



Lemma run_call_grows c (db0 : AttendanceDatabase) :
  attendance db0 `prefix_of` attendance (run_call db0 c) ∧
  users db0 `prefix_of` users (run_call db0 c).
Proof.
  destruct c as [[]| |clk0 roll0 nm0|clk0 i0 d0 t0|]; simpl; try done.
  - rewrite add_user_attendance. split; [done|].
    destruct (add_user clk0 roll0 nm0 db0).1 as [i|] eqn:E.
    + apply add_user_Some, insert_user_Ok in E.
      destruct E as (_ & _ & _ & _ & _ & _ & _ & ->). by apply prefix_app_r.
    + apply add_user_None in E. by rewrite E.
  - rewrite mark_attendance_users. split; [|done].
    destruct (mark_attendance clk0 i0 d0 t0 db0).1 eqn:E.
    + apply mark_attendance_true, insert_attendance_rows in E. rewrite E.
      by apply prefix_app_r.
    + apply mark_attendance_false in E. by rewrite E.
Qed.

(** X7. The tables only grow at the end: after any calls, the rows of
    [attendance] and of [users] that were there are still there, unchanged
    and in the same order, followed by the new ones. No call removes or
    rewrites a row. *)
Theorem tables_are_append_only (cs : list db_call) (db0 : AttendanceDatabase) :
  attendance db0 `prefix_of` attendance (run_calls db0 cs) ∧
  users db0 `prefix_of` users (run_calls db0 cs).
Proof.
  revert db0. induction cs as [|c cs IH]; intros db0; [done|].
  unfold run_calls in *. simpl.
  destruct (run_call_grows c db0) as [Ha Hu].
  destruct (IH (run_call db0 c)) as [Ha' Hu'].
  split; by etrans.
Qed.

(** X8. On a closed connection nothing is written and every read comes back
    empty: until a [connect] succeeds, any sequence of calls leaves the
    object as it is, and the queries return [[]], [None] and 0. *)
Theorem closed_connection_is_inert (cs : list db_call) (clk : clock)
    (date : option string) (roll : string) (j : Z)
    (db0 : AttendanceDatabase) :
  conn_open db0 = false →
  Forall (λ c, c ≠ CallConnect true) cs →
  run_calls db0 cs = db0 ∧
  get_all_users db0 = [] ∧
  get_user_by_roll roll db0 = None ∧
  get_attendance_by_date clk date db0 = [] ∧
  get_all_attendance_records db0 = [] ∧
  get_user_attendance_stats j db0 = 0.
Proof.
  intros Hc Hcs. split.
  - induction Hcs as [|c cs Hne _ IH]; [done|].
    unfold run_calls in *. simpl.
    assert (run_call db0 c = db0) as ->; [|done].
    destruct c as [[]| |clk0 roll0 nm0|clk0 i0 d0 t0|]; simpl; try done.
    + rewrite add_user_refused; [done|by left].
    + unfold mark_attendance, insert_attendance. by rewrite Hc.
    + unfold close. destruct db0. simpl in Hc. by subst.
  - unfold get_all_users, get_user_by_roll, get_attendance_by_date,
      get_all_attendance_records, get_user_attendance_stats.
    by rewrite Hc.
Qed.

Lemma closed_connection_is_inert_witness :
  run_calls (close recorded_db)
    [CallMarkAttendance (clock_at "2024-01-11" "09:00:00") 2 None None;
     CallAddUser (clock_at "2024-01-11" "09:05:00") "R300" "Carol";
     CallConnect false]
  = close recorded_db.
Proof.
  refine (proj1 (closed_connection_is_inert _
                   (clock_at "2024-01-11" "10:00:00") None "R100" 1
                   (close recorded_db) eq_refl _)).
  repeat constructor; discriminate.
Defined.

(** ** The join with [users] *)

Lemma filter_unique_key {A} (f : A → Z) (l : list A) (k : Z) :
  NoDup (f <$> l) → k ∈ f <$> l →
  ∃ x, filter (λ y, f y = k) l = [x].
Proof.
  induction l as [|y l IH]; simpl; intros Hnd Hin.
  - by apply elem_of_nil in Hin.
  - apply NoDup_cons in Hnd as [Hy Hnd].
    destruct (decide (f y = k)) as [E|N].
    + exists y. rewrite filter_cons_True by done. f_equal.
      destruct (filter (λ y0, f y0 = k) l) as [|z l'] eqn:Hf; [done|].
      assert (z ∈ filter (λ y0, f y0 = k) l) as Hz by (rewrite Hf; left).
      apply list_elem_of_filter in Hz as [Hz1 Hz2].
      destruct Hy. rewrite E, <- Hz1. apply list_elem_of_fmap. by exists z.
    + rewrite filter_cons_False by done. apply IH; [done|].
      apply elem_of_cons in Hin as [Hin|Hin]; [by destruct N|done].
Qed.

Lemma filter_absent_key {A} (f : A → Z) (l : list A) (k : Z) :
  k ∉ f <$> l → filter (λ y, f y = k) l = [].
Proof.
  intros Hn. destruct (filter (λ y, f y = k) l) as [|z l'] eqn:Hf; [done|].
  assert (z ∈ filter (λ y, f y = k) l) as Hz by (rewrite Hf; left).
  apply list_elem_of_filter in Hz as [Hz1 Hz2].
  destruct Hn. rewrite <- Hz1. apply list_elem_of_fmap. by exists z.
Qed.

Lemma join_rows (us : list user_row) (rows : list attendance_row) :
  NoDup (u_id <$> us) →
  Forall (λ a, a_user_id a ∈ u_id <$> us) rows →
  (λ x : attendance_row * user_row, x.1) <$>
    (rows ≫= λ a, filter (λ u, u_id u = a_user_id a) us ≫= λ u, [(a, u)])
  = rows.
Proof.
  intros Hnd. induction 1 as [|a rows Ha _ IH]; [done|].
  rewrite bind_cons, fmap_app, IH. 
  destruct (filter_unique_key u_id us (a_user_id a) Hnd Ha) as [u ->].
  done.
Qed.

Lemma filter_fst_fmap {A B} (P : A → Prop) `{∀ x, Decision (P x)}
    (l : list (A * B)) :
  (λ x : A * B, x.1) <$> filter (λ x, P x.1) l
  = filter P ((λ x : A * B, x.1) <$> l).
Proof.
  induction l as [|x l IH]; [done|]. rewrite fmap_cons.
  destruct (decide (P x.1)).
  - rewrite !filter_cons_True by done. by rewrite fmap_cons, IH.
  - by rewrite !filter_cons_False.
Qed.

(** X9. When every attendance row refers to exactly one user, the queries
    neither drop nor repeat a row: on a usable connection,
    [get_attendance_by_date] lists exactly the times of the rows of that
    date, and [get_all_attendance_records] has one tuple per row. *)
Theorem queries_list_every_row_once
    (clk : clock) (date : option string) (db0 : AttendanceDatabase) :
  referential_integrity db0 →
  conn_open db0 = true →
  daily_time <$> get_attendance_by_date clk date db0 ≡ₚ
    a_time <$> filter (λ a, a_date a = default (now_date clk) date)
                 (attendance db0) ∧
  length (get_all_attendance_records db0) = length (attendance db0).
Proof.
  intros [Hnd Hall] Hc.
  pose proof (join_rows (users db0) (attendance db0) Hnd Hall) as Hjoin.
  fold (attendance_join_users db0) in Hjoin.
  unfold get_attendance_by_date, get_all_attendance_records.
  rewrite Hc. simpl. split.
  - rewrite <- list_fmap_compose.
    rewrite (fmap_Permutation _ _ _ (merge_sort_Permutation _ _)).
    rewrite <- Hjoin.
    rewrite <- (filter_fst_fmap (λ a, a_date a = default (now_date clk) date)).
    by rewrite <- list_fmap_compose.
  - rewrite length_fmap, (Permutation_length (merge_sort_Permutation _ _)).
    by rewrite <- Hjoin, length_fmap.
Qed.

Lemma queries_list_every_row_once_witness :
  length (get_all_attendance_records recorded_db) = 1%nat.
Proof.
  refine (proj2 (queries_list_every_row_once
                   (clock_at "2024-01-10" "18:00:00") None recorded_db
                   _ eq_refl)).
  split.
  - apply (bool_decide_eq_true _). reflexivity.
  - repeat constructor.
Defined.

(** X10. The schema's foreign key is not enforced: on a usable connection
    [mark_attendance] for an id no user has succeeds and the row is counted
    by [get_user_attendance_stats]; it never shows in
    [get_attendance_by_date] or [get_all_attendance_records], which return
    what they returned before. *)
Theorem unknown_user_is_recorded_but_not_listed
    (clk : clock) (i : Z) (date time : option string)
    (db0 : AttendanceDatabase) :
  i ∉ u_id <$> users db0 →
  (∀ clk' date',
     get_attendance_by_date clk' date' (mark_attendance clk i date time db0).2
     = get_attendance_by_date clk' date' db0) ∧
  get_all_attendance_records (mark_attendance clk i date time db0).2
  = get_all_attendance_records db0 ∧
  (conn_open db0 = true →
   has_record i (default (now_date clk) date) db0 = false →
   (mark_attendance clk i date time db0).1 = true ∧
   get_user_attendance_stats i (mark_attendance clk i date time db0).2
   = get_user_attendance_stats i db0 + 1).
Proof.
  intros Hno.
  assert (attendance_join_users (mark_attendance clk i date time db0).2
          = attendance_join_users db0) as Hjoin.
  { unfold attendance_join_users. rewrite mark_attendance_users.
    destruct (mark_attendance clk i date time db0).1 eqn:E.
    - apply mark_attendance_true, insert_attendance_rows in E. rewrite E.
      rewrite bind_app, bind_cons. simpl.
      rewrite (filter_absent_key u_id (users db0) i Hno). simpl.
      by rewrite app_nil_r.
    - apply mark_attendance_false in E. by rewrite E. }
  split; [|split].
  - intros clk' date'. unfold get_attendance_by_date.
    by rewrite mark_attendance_conn, Hjoin.
  - unfold get_all_attendance_records.
    by rewrite mark_attendance_conn, Hjoin.
  - intros Hc Hr.
    pose proof (mark_attendance_first clk i date time db0 Hc Hr) as Hok.
    split; [done|].
    rewrite stats_after_mark_attendance by done.
    rewrite Hok, bool_decide_eq_true_2 by done. done.
Qed.

Lemma unknown_user_is_recorded_but_not_listed_witness :
  (mark_attendance (clock_at "2024-01-10" "12:00:00") 999 None None
     recorded_db).1 = true ∧
  get_all_attendance_records
    (mark_attendance (clock_at "2024-01-10" "12:00:00") 999 None None
       recorded_db).2
  = get_all_attendance_records recorded_db.
Proof.
  assert (999 ∉ u_id <$> users recorded_db) as Hno.
  { apply (bool_decide_eq_false _). reflexivity. }
  destruct (unknown_user_is_recorded_but_not_listed
              (clock_at "2024-01-10" "12:00:00") 999 None None recorded_db
              Hno) as (_ & H2 & H3).
  split; [exact (proj1 (H3 eq_refl eq_refl)) | exact H2].
Defined.

(** ** The label map *)

Lemma foldl_label_map_lookup (us : list (Z * string * string))
    (m : gmap Z user_info) (i : Z) (x : user_info) :
  NoDup (us.*1.*1) →
  foldl (λ m u, <[u.1.1 := {| roll_number := u.1.2; name := u.2 |}]> m) m us
    !! i = Some x ↔
  (∃ r n, (i, r, n) ∈ us ∧ x = {| roll_number := r; name := n |}) ∨
  ((i ∉ us.*1.*1) ∧ m !! i = Some x).
Proof.
  revert m. induction us as [|[[k r] n] us IH]; intros m Hnd; simpl.
  - split.
    + intros Hm. right. split; [|done]. intros Hin. by apply elem_of_nil in Hin.
    + intros [(r & n & Hin & _)|[_ Hm]]; [by apply elem_of_nil in Hin|done].
  - simpl in Hnd. apply NoDup_cons in Hnd as [Hk Hnd].
    rewrite (IH _ Hnd). split.
    + intros [(r' & n' & Hin & ->)|[Hni Hm]].
      * left. exists r', n'. split; [by right|done].
      * destruct (decide (k = i)) as [->|Hne].
        -- rewrite lookup_insert_eq in Hm. injection Hm as <-.
           left. exists r, n. split; [by left|done].
        -- rewrite lookup_insert_ne in Hm by done. right.
           split; [|done]. intros [?|?]%elem_of_cons; done.
    + intros [(r' & n' & Hin & ->)|[Hni Hm]].
      * apply elem_of_cons in Hin as [[= -> -> ->]|Hin].
        -- right. split; [done|]. by rewrite lookup_insert_eq.
        -- left. by exists r', n'.
      * right. apply not_elem_of_cons in Hni as [Hne Hni].
        split; [done|]. by rewrite lookup_insert_ne.
Qed.

Lemma get_all_users_ids (db0 : AttendanceDatabase) :
  conn_open db0 = true → (get_all_users db0).*1.*1 ≡ₚ u_id <$> users db0.
Proof.
  intros Hc. unfold get_all_users. rewrite Hc. simpl.
  rewrite <- !list_fmap_compose.
  apply fmap_Permutation, merge_sort_Permutation.
Qed.

Lemma elem_of_get_all_users (db0 : AttendanceDatabase) i r n :
  conn_open db0 = true →
  (i, r, n) ∈ get_all_users db0 ↔
  ∃ u, u ∈ users db0 ∧ u_id u = i ∧ u_roll_number u = r ∧ u_name u = n.
Proof.
  intros Hc.
  rewrite (get_all_users_Permutation db0 Hc).
  rewrite list_elem_of_fmap. split.
  - intros (u & [= -> -> ->] & Hin). by exists u.
  - intros (u & Hin & <- & <- & <-). by exists u.
Qed.

(** X11. With a trained model on disk, a usable connection and distinct
    user ids, the label map [load_recognizer] builds is the [users] table:
    an id maps to a roll number and a name exactly when the table has that
    row. *)
Theorem label_map_mirrors_users
    (w : world) (s : AttendanceSystem) (i : Z) (r n : string) :
  model_file w = TrainedModel →
  conn_open (db s) = true →
  NoDup (u_id <$> users (db s)) →
  label_map (load_recognizer w s).2 !! i
    = Some {| roll_number := r; name := n |} ↔
  ∃ u, u ∈ users (db s) ∧ u_id u = i ∧ u_roll_number u = r ∧ u_name u = n.
Proof.
  intros Hm Hc Hnd. unfold load_recognizer. rewrite Hm. simpl.
  rewrite foldl_label_map_lookup
    by (by rewrite (get_all_users_ids (db s) Hc)).
  rewrite <- (elem_of_get_all_users (db s) i r n Hc). split.
  - intros [(r' & n' & Hin & [= -> ->])|[_ Hm']]; [done|].
    by rewrite lookup_empty in Hm'.
  - intros Hin. left. by exists r, n.
Qed.

Lemma label_map_mirrors_users_witness :
  label_map (load_recognizer evening_world (new_system enrolled_db)).2 !! 2
  = Some {| roll_number := "R200"; name := "Bob" |}.
Proof.
  apply (label_map_mirrors_users evening_world (new_system enrolled_db) 2
           "R200" "Bob" eq_refl eq_refl).
  - apply (bool_decide_eq_true _). reflexivity.
  - exists {| u_id := 2; u_roll_number := "R200"; u_name := "Bob";
              u_created_at := "2024-01-09 08:05:00" |}.
    split; [|done]. vm_compute. right. left.
Defined.

(** ** What a session writes *)

Lemma process_face_bookkeeping (db0 : AttendanceDatabase) (st : session)
    (f : face) :
  session_bookkeeping db0 st → session_bookkeeping db0 (process_face st f).
Proof.
  intros (Hu & new & Ha & Hlen & Hall & Hperm).
  destruct (process_face_fixed st f) as (Hlm & _ & _).
  destruct (process_face_step st f) as [es Hs Ht Hq|info Hl _ Hm r Hdb Hmk Ht].
  - unfold session_bookkeeping. rewrite Hs. split; [done|]. by exists new.
  - unfold session_bookkeeping. rewrite Hdb, Hmk, Hlm. subst r.
    rewrite mark_attendance_users. split; [done|].
    destruct (mark_attendance _ _ _ _ _).1 eqn:E.
    + apply mark_attendance_true, insert_attendance_rows in E.
      eexists (new ++ [_])%list. rewrite E, Ha, <- app_assoc.
      split; [done|]. split; [|split].
      * rewrite length_app, size_union, size_singleton, Hlen; [done|].
        intros x Hx ->%elem_of_singleton. done.
      * apply Forall_app. split.
        -- eapply Forall_impl; [exact Hall|]. simpl. intros a [? ?].
           split; [by apply elem_of_union_l|done].
        -- apply Forall_singleton. simpl. split.
           ++ apply elem_of_union_r. by apply elem_of_singleton.
           ++ by rewrite Hl.
      * rewrite fmap_app, Hperm, (union_comm_L (marked_today (sys st))).
        rewrite elements_union_singleton by done. simpl.
        symmetry. apply Permutation_cons_append.
    + apply mark_attendance_false in E. rewrite E. by exists new.
Qed.

Lemma session_bookkeeping_frames
    (w : world) (s : AttendanceSystem) (st : session) (fs : list frame) :
  initialize w s = Running st →
  session_bookkeeping (db s) (run_frames fs st).
Proof.
  intros Hinit. apply initialize_Running in Hinit.
  destruct Hinit as (_ & _ & Hdb & Hmk & _).
  apply (frames_invariant (session_bookkeeping (db s)) (λ _, True)).
  - done.
  - intros st0 f _. apply process_face_bookkeeping.
  - apply Forall_forall. intros fr _. by apply Forall_forall.
  - unfold session_bookkeeping. rewrite Hdb, Hmk. split; [done|].
    exists []. rewrite app_nil_r, size_empty, elements_empty. done.
Qed.

Lemma run_frames_label_map (fs : list frame) (st : session) :
  label_map (sys (run_frames fs st)) = label_map (sys st) ∧
  recognition_threshold (sys (run_frames fs st))
  = recognition_threshold (sys st).
Proof.
  apply (frames_invariant
           (λ st0, label_map (sys st0) = label_map (sys st) ∧
                   recognition_threshold (sys st0)
                   = recognition_threshold (sys st)) (λ _, True)).
  - done.
  - intros st0 f _ [H1 H2].
    destruct (process_face_fixed st0 f) as (-> & -> & _). done.
  - apply Forall_forall. intros fr _. by apply Forall_forall.
  - done.
Qed.



Lemma label_map_keys_enrolled (w : world) (s : AttendanceSystem) (i : Z) :
  model_file w = TrainedModel →
  is_Some (label_map (load_recognizer w s).2 !! i) →
  i ∈ u_id <$> users (db s).
Proof.
  intros Hm. unfold load_recognizer. rewrite Hm. simpl.
  unfold get_all_users. destruct (conn_open (db s)); simpl.
  - assert (∀ (us : list user_row) (m : gmap Z user_info),
              is_Some (foldl
                (λ m u, <[u.1.1 := {| roll_number := u.1.2; name := u.2 |}]> m)
                m ((λ u, (u_id u, u_roll_number u, u_name u)) <$> us) !! i) →
              i ∈ u_id <$> us ∨ is_Some (m !! i)) as Hgen.
    { induction us as [|u us IH]; intros m; simpl; [by right|].
      intros [Hin|Hs]%IH.
      - left. by right.
      - destruct (decide (u_id u = i)) as [<-|Hne]; [left; by left|].
        rewrite lookup_insert_ne in Hs by done. by right. }
    intros [Hin|Hs]%Hgen.
    + by rewrite (merge_sort_Permutation _ _) in Hin.
    + rewrite lookup_empty in Hs. by destruct Hs.
  - rewrite lookup_empty. by intros [? ?].
Qed.

(** X13. A session keeps the store consistent: if, before
    [start_attendance], user ids are distinct and every attendance row
    refers to a user, the same holds after it, whatever the camera showed;
    the session records nobody the [users] table does not have. *)
Theorem session_keeps_referential_integrity
    (w : world) (s : AttendanceSystem) :
  referential_integrity (db s) →
  referential_integrity (db (start_attendance w s).1).
Proof.
  intros [Hnd Hall]. unfold start_attendance.
  destruct (initialize w s) as [s' tr|st] eqn:Hinit; simpl.
  - assert (db s' = db s) as ->; [|done].
    unfold initialize in Hinit.
    pose proof (load_recognizer_db w s) as Hdb.
    destruct (load_recognizer w s) as [[] s1]; simpl in *.
    + destruct (camera_opens w); simpl in Hinit; [done|].
      by injection Hinit as <- _.
    + by injection Hinit as <- _.
  - destruct (session_bookkeeping_frames w s st (frames w) Hinit)
      as (Hu & new & Ha & _ & Hnew & _).
    assert (label_map (sys (run_frames (frames w) st))
            = label_map (load_recognizer w s).2) as Hlm.
    { rewrite (proj1 (run_frames_label_map (frames w) st)).
      unfold initialize in Hinit.
      destruct (load_recognizer w s) as [[] s1]; simpl in *; [|done].
      destruct (camera_opens w); simpl in Hinit; [|done].
      by injection Hinit as <-. }
    pose proof (initialize_Running _ _ _ Hinit) as (Hm & _).
    unfold referential_integrity. rewrite Hu, Ha. split; [done|].
    apply Forall_app. split; [done|].
    eapply Forall_impl; [exact Hnew|]. simpl. intros a [_ Hs].
    rewrite Hlm in Hs. by apply (label_map_keys_enrolled w s).
Qed.

Lemma session_keeps_referential_integrity_witness :
  referential_integrity
    (db (start_attendance evening_world (new_system enrolled_db)).1).
Proof.
  apply (session_keeps_referential_integrity evening_world
           (new_system enrolled_db)).
  split.
  - apply (bool_decide_eq_true _). reflexivity.
  - constructor.
Defined.

(** ** Faces that are turned away *)

Lemma process_face_turned_away (s0 : AttendanceSystem) (st : session)
    (f : face) :
  turned_away s0 f → nothing_recorded s0 st →
  nothing_recorded s0 (process_face st f).
Proof.
  intros Hf [Hs Hq]. unfold nothing_recorded, process_face, decide_face.
  rewrite Hs.
  destruct Hf as [Hno|Hfar].
  - rewrite Hno.
    destruct (float_lt _ _); simpl; [done|].
    split; [done|]. intros l d ok [Hin|Hin]%elem_of_app; [by eapply Hq|].
    by apply list_elem_of_singleton in Hin.
  - rewrite Hfar. simpl.
    split; [done|]. intros l d ok [Hin|Hin]%elem_of_app; [by eapply Hq|].
    by apply list_elem_of_singleton in Hin.
Qed.

(** X14. A session in which every face is turned away (its label is not in
    the label map, or its score is not below the threshold) calls
    [mark_attendance] for nobody and leaves the store and the cache as they
    were at its start; so does, in particular, any session held while
    nobody is enrolled. *)
Theorem turned_away_faces_touch_nothing
    (w : world) (s : AttendanceSystem) (st : session) (fs : list frame) :
  initialize w s = Running st →
  Forall (λ fr, Forall (turned_away (sys st)) (faces fr)) fs →
  db (sys (run_frames fs st)) = db s ∧
  marked_today (sys (run_frames fs st)) = ∅ ∧
  ∀ l, ledger_calls l (trace (run_frames fs st)) = 0%nat.
Proof.
  intros Hinit Hfs.
  pose proof (initialize_Running _ _ _ Hinit) as (_ & _ & Hdb & Hmk & _ & Htr).
  assert (nothing_recorded (sys st) (run_frames fs st)) as [Hs Hq].
  { apply (frames_invariant (nothing_recorded (sys st))
             (turned_away (sys st))).
    - done.
    - intros st0 f. apply process_face_turned_away.
    - done.
    - split; [done|]. rewrite Htr. intros l d ok Hin.
      by apply list_elem_of_singleton in Hin. }
  rewrite Hs. split; [done|]. split; [done|].
  intros l. unfold ledger_calls. by rewrite quiet_call_results.
Qed.

Lemma turned_away_faces_touch_nothing_witness :
  db (sys (run_frames strangers_frames second_session)) = recorded_db.
Proof.
  refine (proj1 (turned_away_faces_touch_nothing evening_world
                   (new_system recorded_db) second_session strangers_frames
                   eq_refl _)).
  constructor; [|constructor].
  constructor; [right; reflexivity|].
  constructor; [left; reflexivity|constructor].
Defined.

(** ** How the loop ends *)

(** X15. The loop stops at the first frame whose read fails or during
    which the key q is seen: the frames after it are not looked at. The
    faces of a frame whose read failed are not processed either; those of
    the frame in which q is pressed are. *)
Theorem loop_stops_at_failed_read_or_quit
    (before after : list frame) (f : frame) (st : session) :
  Forall (λ g, ret g = true ∧ quit_key g = false) before →
  (ret f = false →
   run_frames (before ++ f :: after) st = run_frames before st) ∧
  (ret f = true → quit_key f = true →
   run_frames (before ++ f :: after) st
   = foldl process_face
       {| sys := sys (run_frames before st);
          today := today (run_frames before st);
          frame_count := S (frame_count (run_frames before st));
          trace := trace (run_frames before st) |}
       (faces f)).
Proof.
  intros Hb. revert st.
  induction Hb as [|g before [Hr Hq] _ IH]; intros st; simpl.
  - split.
    + intros ->. done.
    + intros -> ->. done.
  - rewrite Hr, Hq. simpl. apply IH.
Qed.

Lemma loop_stops_at_failed_read_or_quit_witness :
  run_frames
    [ {| ret := true; faces := [alice_at "2024-01-10" "17:00:01"];
         quit_key := false |};
      {| ret := false; faces := [alice_at "2024-01-10" "17:00:02"];
         quit_key := false |};
      {| ret := true; faces := [alice_at "2024-01-10" "17:00:03"];
         quit_key := false |} ] second_session
  = run_frames
      [ {| ret := true; faces := [alice_at "2024-01-10" "17:00:01"];
           quit_key := false |} ] second_session.
Proof.
  refine (proj1 (loop_stops_at_failed_read_or_quit
                   [ {| ret := true;
                        faces := [alice_at "2024-01-10" "17:00:01"];
                        quit_key := false |} ]
                   [ {| ret := true;
                        faces := [alice_at "2024-01-10" "17:00:03"];
                        quit_key := false |} ]
                   {| ret := false;
                      faces := [alice_at "2024-01-10" "17:00:02"];
                      quit_key := false |}
                   second_session _) eq_refl).
  repeat constructor.
Defined.

(** ** The camera *)

Ltac not_among_events :=
  let Hin := fresh "Hin" in
  intros Hin;
  repeat (apply elem_of_cons in Hin as [Hin|Hin]; [discriminate Hin|]);
  by apply elem_of_nil in Hin.

Lemma process_face_camera_held (st : session) (f : face) :
  camera_held st → camera_held (process_face st f).
Proof.
  intros (body & Htr & Ho & Hr).
  assert (∀ st' es, (OpenCamera ∉ es) → (ReleaseCamera ∉ es) →
                    trace st' = (trace st ++ es)%list →
                    camera_held st') as Hext.
  { intros st' es Ho' Hr' Ht. exists (body ++ es)%list.
    rewrite Ht, Htr. split; [done|].
    split; intros [?|?]%elem_of_app; done. }
  unfold process_face.
  destruct (decide_face _ _ _ _) as [l info|[]].
  - destruct (already_marked _ _).
    + apply (Hext _ [ShowRecognized l]); [not_among_events..|done].
    + destruct (mark_attendance _ _ _ _ _) as [[] db'].
      * apply (Hext _ [ShowRecognized l;
                       LedgerCall l (now_date (face_clock f)) true;
                       ShowMarked l]); [not_among_events..|done].
      * apply (Hext _ [ShowRecognized l;
                       LedgerCall l (now_date (face_clock f)) false;
                       ShowAlreadyMarked l]); [not_among_events..|done].
  - apply (Hext _ [ShowUnknown]); [not_among_events..|done].
  - apply (Hext _ []); [not_among_events..|by rewrite app_nil_r].
Qed.

(** X16. What [start_attendance] does with the camera: with a trained
    model, it opens the camera first; if the camera does not open, it
    returns at once, with the store and the cache as they were (the cache
    is not emptied), and releases nothing; if it opens, the camera is
    released once, last, whatever ended the loop. *)
Theorem camera_is_opened_first_and_released_last
    (w : world) (s : AttendanceSystem) :
  model_file w = TrainedModel →
  (camera_opens w = false →
   (start_attendance w s).2 = [OpenCamera] ∧
   db (start_attendance w s).1 = db s ∧
   marked_today (start_attendance w s).1 = marked_today s) ∧
  (camera_opens w = true →
   ∃ body,
     (start_attendance w s).2 = (OpenCamera :: body ++ [ReleaseCamera])%list ∧
     (OpenCamera ∉ body) ∧ (ReleaseCamera ∉ body)).
Proof.
  intros Hm. unfold start_attendance, initialize, load_recognizer.
  rewrite Hm. simpl. split; intros ->; simpl; [done|].
  match goal with
  | |- context [run_frames (frames w) ?st0] =>
      destruct (frames_invariant camera_held (λ _, True)) with
        (frs := frames w) (st := st0) as (body & Htr & Ho & Hr)
  end.
  - intros st0 n (body & Htr & Ho & Hr). by exists body.
  - intros st0 f _. apply process_face_camera_held.
  - apply Forall_forall. intros fr _. by apply Forall_forall.
  - exists []. simpl. split; [done|]. split; by intros ?%elem_of_nil.
  - exists body. by rewrite Htr.
Qed.

Lemma camera_is_opened_first_and_released_last_witness :
  (start_attendance
     {| model_file := TrainedModel; camera_opens := false;
        start_clock := clock_at "2024-01-10" "17:00:00";
        frames := frames evening_world |} used_system).2 = [OpenCamera] ∧
  ∃ body,
    (start_attendance evening_world used_system).2
    = (OpenCamera :: body ++ [ReleaseCamera])%list.
Proof.
  split.
  - exact (proj1 (proj1 (camera_is_opened_first_and_released_last
                           {| model_file := TrainedModel;
                              camera_opens := false;
                              start_clock := clock_at "2024-01-10" "17:00:00";
                              frames := frames evening_world |}
                           used_system eq_refl) eq_refl)).
  - destruct (proj2 (camera_is_opened_first_and_released_last evening_world
                       used_system eq_refl) eq_refl) as (body & H & _).
    by exists body.
Defined.

(** ** The validators of [helpers.py] *)

Section validators.
Context {char : Type} (isspace : char → bool).
Implicit Types s t : list char.

Lemma lstrip_split s :
  ∃ ws, Forall (λ c, isspace c = true) ws ∧ s = (ws ++ lstrip isspace s)%list.
Proof.
  induction s as [|c s (ws & Hws & Hs)]; simpl.
  - by exists [].
  - destruct (isspace c) eqn:E.
    + exists (c :: ws). split; [by constructor|]. simpl. by f_equal.
    + by exists [].
Qed.

Lemma lstrip_head s c :
  head (lstrip isspace s) = Some c → isspace c = false.
Proof.
  induction s as [|c' s IH]; simpl; [done|].
  destruct (isspace c') eqn:E; [done|]. simpl. by intros [= <-].
Qed.

Lemma lstrip_id s :
  (∀ c, head s = Some c → isspace c = false) → lstrip isspace s = s.
Proof. destruct s as [|c s]; simpl; [done|]. intros H. by rewrite H. Qed.

Lemma lstrip_nil s :
  lstrip isspace s = [] ↔ Forall (λ c, isspace c = true) s.
Proof.
  split.
  - intros E. destruct (lstrip_split s) as (ws & Hws & Hs).
    rewrite E, app_nil_r in Hs. by subst.
  - induction 1 as [|c s Hc _ IH]; simpl; [done|]. by rewrite Hc.
Qed.

Lemma rstrip_split t :
  ∃ ws, Forall (λ c, isspace c = true) ws ∧ t = (rstrip isspace t ++ ws)%list.
Proof.
  destruct (lstrip_split (reverse t)) as (ws & Hws & Ht).
  exists (reverse ws). split; [by apply Forall_reverse|].
  unfold rstrip. rewrite <- reverse_app, <- Ht. by rewrite reverse_involutive.
Qed.

Lemma rstrip_last t c : last (rstrip isspace t) = Some c → isspace c = false.
Proof. unfold rstrip. rewrite last_reverse. apply lstrip_head. Qed.

Lemma rstrip_id t :
  (∀ c, last t = Some c → isspace c = false) → rstrip isspace t = t.
Proof.
  intros H. unfold rstrip. rewrite lstrip_id, reverse_involutive; [done|].
  intros c. rewrite head_reverse. apply H.
Qed.

Lemma rstrip_nil t :
  rstrip isspace t = [] ↔ Forall (λ c, isspace c = true) t.
Proof.
  unfold rstrip. split.
  - intros E. apply (f_equal reverse) in E.
    rewrite reverse_involutive, reverse_nil in E.
    apply lstrip_nil in E. by rewrite Forall_reverse in E.
  - intros H. rewrite <- Forall_reverse in H. apply lstrip_nil in H.
    by rewrite H.
Qed.

Lemma strip_nil s : strip isspace s = [] ↔ Forall (λ c, isspace c = true) s.
Proof.
  unfold strip. rewrite rstrip_nil.
  destruct (lstrip_split s) as (ws & Hws & Hs). split.
  - intros H. rewrite Hs. by apply Forall_app.
  - intros H. rewrite Hs in H. by apply Forall_app in H as [_ H].
Qed.

Lemma strip_stripped s : stripped isspace (strip isspace s).
Proof.
  split; [|apply rstrip_last].
  intros c Hc. unfold strip in Hc.
  destruct (rstrip_split (lstrip isspace s)) as (ws & _ & Ht).
  apply (lstrip_head s c). rewrite Ht.
  destruct (rstrip isspace (lstrip isspace s)); [done|]. done.
Qed.

Lemma strip_id s : stripped isspace s → strip isspace s = s.
Proof.
  intros [Hh Hl]. unfold strip. rewrite (lstrip_id s Hh). by apply rstrip_id.
Qed.

Lemma truthy_true s : truthy s = true ↔ s ≠ [].
Proof. by destruct s. Qed.

Lemma validate_roll_number_true s :
  validate_roll_number isspace s = true ↔ ∃ c, c ∈ s ∧ isspace c = false.
Proof.
  unfold validate_roll_number.
  assert (truthy (strip isspace s) = true ↔ ∃ c, c ∈ s ∧ isspace c = false)
    as Hstrip.
  { rewrite truthy_true, strip_nil. split.
    - intros Hn. apply not_Forall_Exists in Hn; [|solve_decision].
      apply Exists_exists in Hn as (c & Hin & Hc). exists c.
      split; [done|]. by apply not_true_is_false.
    - intros (c & Hin & Hc) Hall. rewrite Forall_forall in Hall.
      specialize (Hall c Hin). congruence. }
  destruct s as [|c s]; simpl.
  - split; [done|]. intros (c & Hin & _). by apply elem_of_nil in Hin.
  - exact Hstrip.
Qed.

Lemma validate_name_true s :
  validate_name isspace s = true ↔
  (∃ c, c ∈ s ∧ isspace c = false) ∧ (2 ≤ length s)%nat.
Proof.
  rewrite <- validate_roll_number_true.
  unfold validate_name, validate_roll_number.
  destruct (truthy s); [|by split; [|intros []]].
  destruct (truthy (strip isspace s)); [|by split; [|intros []]].
  rewrite bool_decide_eq_true. split; [done|by intros []].
Qed.

Lemma prompt_until_valid_Some valid lines answer rest :
  prompt_until_valid isspace valid lines = Some (answer, rest) →
  valid answer = true ∧ stripped isspace answer ∧
  ∃ skipped line,
    lines = (skipped ++ line :: rest)%list ∧
    answer = strip isspace line ∧
    Forall (λ l, valid (strip isspace l) = false) skipped.
Proof.
  revert answer rest. induction lines as [|line lines IH]; simpl; [done|].
  intros answer rest.
  destruct (valid (strip isspace line)) eqn:E.
  - intros [= <- <-]. split; [done|]. split; [apply strip_stripped|].
    by exists [], line.
  - intros (Hv & Hs & skipped & l & -> & -> & Hsk)%IH.
    split; [done|]. split; [done|].
    exists (line :: skipped), l. split; [done|]. split; [done|].
    by constructor.
Qed.
End validators.

(** X17. [validate_roll_number] accepts exactly the texts that hold at least
    one character that is not whitespace: the empty text and texts of
    whitespace only are refused, whatever their length. *)
Theorem validate_roll_number_wants_a_visible_character
    {char : Type} (isspace : char → bool) (s : list char) :
  validate_roll_number isspace s = true ↔
  ∃ c, c ∈ s ∧ isspace c = false.
Proof. apply validate_roll_number_true. Qed.

Lemma validate_roll_number_wants_a_visible_character_witness :
  validate_roll_number py_isspace [32; 82; 49; 32]%N = true ∧
  ¬ ∃ c, c ∈ [32; 9; 160]%N ∧ py_isspace c = false.
Proof.
  split.
  - apply (validate_roll_number_wants_a_visible_character py_isspace).
    exists 82%N. split; [|reflexivity]. right. left.
  - intros H.
    apply (validate_roll_number_wants_a_visible_character py_isspace) in H.
    discriminate H.
Defined.

(** X18. [validate_name] accepts a text exactly when [validate_roll_number]
    accepts it and it has at least two characters, whitespace at the ends
    included in the count; on a text without whitespace at its ends, which
    is what [main.py] passes, it only asks for two characters. *)
Theorem validate_name_wants_two_characters
    {char : Type} (isspace : char → bool) (s : list char) :
  (validate_name isspace s = true ↔
   validate_roll_number isspace s = true ∧ (2 ≤ length s)%nat) ∧
  (stripped isspace s →
   (validate_name isspace s = true ↔ (2 ≤ length s)%nat)).
Proof.
  split.
  - by rewrite validate_name_true, validate_roll_number_true.
  - intros [Hh _]. rewrite validate_name_true. split; [by intros [_ ?]|].
    intros Hlen. split; [|done].
    destruct s as [|c s]; [simpl in Hlen; lia|].
    exists c. split; [by left|]. by apply Hh.
Qed.

Lemma validate_name_wants_two_characters_witness :
  validate_name py_isspace [65; 108]%N = true ∧
  validate_name py_isspace [65; 32]%N = true ∧
  validate_name py_isspace [65]%N = false.
Proof.
  assert (stripped py_isspace [65; 108]%N) as Hs.
  { split; intros c [= <-]; reflexivity. }
  split; [|split; reflexivity].
  apply (proj2 (validate_name_wants_two_characters py_isspace [65; 108]%N)
           Hs).
  simpl. lia.
Defined.

(** X19. The two prompts of [register_new_face]: the roll number they hand
    on is not empty and has no whitespace at either end, the name has at
    least two characters and none at the ends that is whitespace; each is
    the first line typed whose stripped form the validator accepts, and the
    lines skipped for the roll number were blank. *)
Theorem prompts_hand_on_clean_answers
    {char : Type} (isspace : char → bool)
    (lines rest rest' : list (list char)) (roll nm : list char) :
  prompt_until_valid isspace (validate_roll_number isspace) lines
    = Some (roll, rest) →
  prompt_until_valid isspace (validate_name isspace) rest
    = Some (nm, rest') →
  roll ≠ [] ∧ stripped isspace roll ∧
  (2 ≤ length nm)%nat ∧ stripped isspace nm ∧
  ∃ blank line,
    lines = (blank ++ line :: rest)%list ∧ roll = strip isspace line ∧
    Forall (Forall (λ c, isspace c = true)) blank.
Proof.
  intros (Hv & Hs & blank & line & Hl & Hr & Hb)%prompt_until_valid_Some
         (Hv' & Hs' & _)%prompt_until_valid_Some.
  split.
  { apply validate_roll_number_true in Hv as (c & Hin & _).
    intros ->. by apply elem_of_nil in Hin. }
  split; [done|].
  apply validate_name_true in Hv' as [_ Hlen].
  split; [done|]. split; [done|].
  exists blank, line. split; [done|]. split; [done|].
  eapply Forall_impl; [exact Hb|]. simpl. intros l Hf.
  apply (strip_nil isspace).
  unfold validate_roll_number in Hf.
  rewrite (strip_id isspace (strip isspace l)) in Hf
    by apply strip_stripped.
  by destruct (strip isspace l).
Qed.

Lemma prompts_hand_on_clean_answers_witness :
  prompt_until_valid py_isspace (validate_roll_number py_isspace)
    [[32; 32]; [32; 82; 49; 32]; [65]; [65; 108; 32]]%N
  = Some ([82; 49]%N, [[65]; [65; 108; 32]]%N) ∧
  (2 ≤ length [65; 108]%N)%nat.
Proof.
  split; [reflexivity|].
  exact (proj1 (proj2 (proj2 (prompts_hand_on_clean_answers py_isspace
                 [[32; 32]; [32; 82; 49; 32]; [65]; [65; 108; 32]]%N
                 [[65]; [65; 108; 32]]%N [] [82; 49]%N [65; 108]%N
                 eq_refl eq_refl)))).
Defined.

(** ** Capturing samples ([face_register.py]) *)

Lemma capture_refused w clk roll nm n (db0 : AttendanceDatabase) (d : disk) :
  roll ∈ u_roll_number <$> users db0 ∨ conn_open db0 = false →
  capture_face_samples w clk roll nm n db0 d
  = {| outcome := Returned false; db_after := db0; disk_after := d;
       captured := 0 |}.
Proof.
  intros H. unfold capture_face_samples.
  destruct (get_user_by_roll roll db0); [done|].
  rewrite add_user_refused; [done|]. destruct H; [by right|by left].
Qed.

Lemma foldl_save_face dir (faces0 : list bool) (acc : nat * disk) :
  (foldl (save_face dir) acc faces0).1 = (acc.1 + length faces0)%nat ∧
  ∀ c0 d0, capture_invariant dir c0 d0 acc →
           capture_invariant dir c0 d0 (foldl (save_face dir) acc faces0).
Proof.
  revert acc. induction faces0 as [|b bs IH]; intros acc; simpl.
  - split; [lia|done].
  - destruct (IH (save_face dir acc b)) as [Hc Hinv]. split.
    + rewrite Hc. simpl. lia.
    + intros c0 d0 (Hle & Hd & Hsub & Hnew). apply Hinv.
      unfold capture_invariant, save_face. simpl.
      destruct b; simpl.
      * split; [lia|]. split; [done|].
        split; [intros x Hx; by apply elem_of_union_l, Hsub|].
        intros p k [Hin|Hin]%elem_of_union Hout.
        -- destruct (Hnew p k Hin Hout) as [-> ?]. split; [done|lia].
        -- apply elem_of_singleton in Hin as [= -> ->]. split; [done|lia].
      * split; [lia|]. split; [done|]. split; [done|].
        intros p k Hin Hout.
        destruct (Hnew p k Hin Hout) as [-> ?]. split; [done|lia].
Qed.

Lemma capture_loop_invariant dir n frs c (d : disk) c0 d0 :
  capture_invariant dir c0 d0 (c, d) →
  capture_invariant dir c0 d0 (capture_loop dir n frs c d).
Proof.
  revert c d. induction frs as [|fr frs IH]; intros c d Hinv; simpl; [done|].
  case_bool_decide; [|done].
  destruct (c_ret fr); simpl; [|done].
  pose proof (proj2 (foldl_save_face dir (c_faces fr) (c, d)) c0 d0 Hinv)
    as Hinv'.
  destruct (c_quit fr); [done|].
  apply IH. by destruct (foldl (save_face dir) (c, d) (c_faces fr)).
Qed.

Lemma capture_loop_bound dir n frs c (d : disk) (m : nat) (B : Z) :
  Forall (λ fr, (length (c_faces fr) ≤ m)%nat) frs →
  n - 1 + Z.of_nat m ≤ B → Z.of_nat c ≤ B →
  Z.of_nat (capture_loop dir n frs c d).1 ≤ B.
Proof.
  intros Hm HB. revert c d.
  induction Hm as [|fr frs Hfr _ IH]; intros c d Hc; simpl; [done|].
  case_bool_decide as Hlt; [|done].
  destruct (c_ret fr); simpl; [|done].
  pose proof (proj1 (foldl_save_face dir (c_faces fr) (c, d))) as Hcount.
  simpl in Hcount.
  assert (Z.of_nat (foldl (save_face dir) (c, d) (c_faces fr)).1 ≤ B)
    by (rewrite Hcount; lia).
  destruct (c_quit fr); [done|]. by apply IH.
Qed.

(** X20. [capture_face_samples] writes the user into the database before
    it touches the disk or the camera. With a usable connection and a roll
    number not yet taken, the user is enrolled when the call ends, however
    it ends: it returns [True] only if the directory is there or can be
    made and the camera opens, and otherwise returns [False] or raises with
    the user enrolled all the same. From then on every call for that roll
    number is refused and changes nothing, so samples can no longer be
    captured for it. *)
Theorem capture_enrolls_before_it_films
    (w : capture_world) (clk : clock) (roll nm : string) (n : Z)
    (db0 : AttendanceDatabase) (d : disk) :
  conn_open db0 = true →
  roll ∉ u_roll_number <$> users db0 →
  get_user_by_roll roll (db_after (capture_face_samples w clk roll nm n db0 d))
  = Some (users_seq db0 + 1, roll, nm) ∧
  attendance (db_after (capture_face_samples w clk roll nm n db0 d))
  = attendance db0 ∧
  (outcome (capture_face_samples w clk roll nm n db0 d) = Returned true ↔
   (user_dir roll nm ∈ dirs d ∨ makedirs_ok w = true) ∧
   c_camera_opens w = true) ∧
  ∀ w' clk' nm' n' d',
    capture_face_samples w' clk' roll nm' n'
      (db_after (capture_face_samples w clk roll nm n db0 d)) d'
    = {| outcome := Returned false;
         db_after := db_after (capture_face_samples w clk roll nm n db0 d);
         disk_after := d'; captured := 0 |}.
Proof.
  intros Hc Hfresh.
  pose proof (add_user_fresh clk roll nm db0 Hc Hfresh) as Hid.
  pose proof (add_user_Some _ _ _ _ _ Hid) as Hins.
  apply insert_user_Ok in Hins.
  destruct Hins as (_ & _ & _ & _ & Hc1 & Ha1 & _ & Hu1).
  assert (get_user_by_roll roll db0 = None) as Hnone.
  { unfold get_user_by_roll. rewrite Hc. simpl.
    assert (filter (λ u, u_roll_number u = roll) (users db0) = []) as ->;
      [|done].
    apply dec_stable. by rewrite roll_enrolled_filter. }
  assert (db_after (capture_face_samples w clk roll nm n db0 d)
          = (add_user clk roll nm db0).2) as Hdb.
  { unfold capture_face_samples. rewrite Hnone.
    destruct (add_user clk roll nm db0) as [[i|] db1]; simpl; [|done].
    destruct (bool_decide _ || makedirs_ok w); [|done].
    by destruct (negb (c_camera_opens w)). }
  rewrite Hdb.
  assert (filter (λ u, u_roll_number u = roll)
            (users (add_user clk roll nm db0).2)
          = [ {| u_id := users_seq db0 + 1; u_roll_number := roll;
                 u_name := nm; u_created_at := current_timestamp clk |} ])
    as Hf.
  { rewrite Hu1, filter_app, filter_cons_True, filter_nil by done.
    assert (filter (λ u, u_roll_number u = roll) (users db0) = []) as ->;
      [|done].
    apply dec_stable. by rewrite roll_enrolled_filter. }
  split; [|split; [done|split]].
  - unfold get_user_by_roll. by rewrite Hc1, Hf.
  - unfold capture_face_samples. rewrite Hnone.
    destruct (add_user clk roll nm db0) as [[i|] db1]; simpl in *; [|done].
    case_bool_decide as Hd; simpl.
    + destruct (c_camera_opens w); simpl; split; try done.
      * intros _. split; [by left|done].
      * by intros [_ ?].
    + destruct (makedirs_ok w); simpl.
      * destruct (c_camera_opens w); simpl; split; try done.
        -- intros _. split; [by right|done].
        -- by intros [_ ?].
      * split; [done|]. by intros [[?|?] _].
  - intros w' clk' nm' n' d'. apply capture_refused. left.
    apply roll_enrolled_filter. by rewrite Hf.
Qed.

Lemma capture_enrolls_before_it_films_witness :
  outcome (capture_face_samples
             {| makedirs_ok := true; c_camera_opens := false;
                c_frames := [] |}
             (clock_at "2024-01-12" "08:00:00") "R300" "Carol" 30
             recorded_db {| dirs := ∅; jpgs := ∅ |})
  = Returned false ∧
  get_user_by_roll "R300"
    (db_after (capture_face_samples
                 {| makedirs_ok := true; c_camera_opens := false;
                    c_frames := [] |}
                 (clock_at "2024-01-12" "08:00:00") "R300" "Carol" 30
                 recorded_db {| dirs := ∅; jpgs := ∅ |}))
  = Some (3, "R300"%string, "Carol"%string).
Proof.
  split; [reflexivity|].
  refine (proj1 (capture_enrolls_before_it_films _ _ "R300" "Carol" 30
                   recorded_db _ eq_refl _)).
  apply (bool_decide_eq_false _). reflexivity.
Defined.

(** X21. The capture loop counts every detected face, stored or not, and
    tests its bound only between frames: with at most [m] faces per frame
    the count it ends with is at most [num_samples - 1 + m] (and 0 if that
    is negative), so it can pass [num_samples] when a frame shows several
    faces. The loop creates no directory, removes no file, and every file
    it adds is a sample of the user's directory with a number below the
    final count. *)
Theorem capture_loop_counts_faces_not_frames
    (dir : string) (n : Z) (frs : list capture_frame) (d : disk) (m : nat) :
  Forall (λ fr, (length (c_faces fr) ≤ m)%nat) frs →
  Z.of_nat (capture_loop dir n frs 0 d).1 ≤ Z.max 0 (n - 1 + Z.of_nat m) ∧
  dirs (capture_loop dir n frs 0 d).2 = dirs d ∧
  jpgs d ⊆ jpgs (capture_loop dir n frs 0 d).2 ∧
  ∀ p k, (p, k) ∈ jpgs (capture_loop dir n frs 0 d).2 →
         (p, k) ∉ jpgs d →
         p = dir ∧ (k < (capture_loop dir n frs 0 d).1)%nat.
Proof.
  intros Hm. split.
  - apply (capture_loop_bound dir n frs 0 d m); [done|lia..].
  - destruct (capture_loop_invariant dir n frs 0 d 0 d)
      as (_ & Hd & Hsub & Hnew).
    + unfold capture_invariant. simpl. split; [lia|]. split; [done|].
      split; [done|]. intros p k Hin Hout. done.
    + split; [done|]. split; [done|].
      intros p k Hin Hout. destruct (Hnew p k Hin Hout) as [-> ?].
      split; [done|lia].
Qed.

Lemma capture_loop_counts_faces_not_frames_witness :
  Z.of_nat
    (capture_loop "R300_Carol" 2
       [ {| c_ret := true; c_faces := [true]; c_quit := false |};
         {| c_ret := true; c_faces := [true; false]; c_quit := false |};
         {| c_ret := true; c_faces := [true]; c_quit := false |} ]
       0 {| dirs := {[ "R300_Carol"%string ]}; jpgs := ∅ |}).1
  ≤ Z.max 0 (2 - 1 + Z.of_nat 2) ∧
  (capture_loop "R300_Carol" 2
     [ {| c_ret := true; c_faces := [true]; c_quit := false |};
       {| c_ret := true; c_faces := [true; false]; c_quit := false |};
       {| c_ret := true; c_faces := [true]; c_quit := false |} ]
     0 {| dirs := {[ "R300_Carol"%string ]}; jpgs := ∅ |}).1 = 3%nat.
Proof.
  split; [|reflexivity].
  refine (proj1 (capture_loop_counts_faces_not_frames "R300_Carol" 2 _
                   {| dirs := {[ "R300_Carol"%string ]}; jpgs := ∅ |} 2 _)).
  repeat constructor.
Defined.

(** ** Reports ([report_generator.py]) *)

#[global] Instance row_date_desc_time_desc_total :
  Total row_date_desc_time_desc.
Proof.
  intros x y. unfold row_date_desc_time_desc.
  destruct (decide (a_date x = a_date y)) as [E|N].
  - rewrite E.
    destruct (total String.le (a_time y) (a_time x)); [left|right];
      split; done.
  - destruct (total String.le (a_date y) (a_date x)); [left|right];
      split; try done; intros ?; congruence.
Qed.

#[global] Instance row_date_desc_time_desc_trans :
  Transitive row_date_desc_time_desc.
Proof.
  intros x y z [Hxy Txy] [Hyz Tyz]. split; [by etrans|].
  intros E. rewrite E in Hxy.
  assert (a_date y = a_date z) as E' by (by apply (anti_symm String.le)).
  etrans; [apply Tyz | apply Txy]; congruence.
Qed.

Lemma get_user_by_roll_Some roll (db0 : AttendanceDatabase) i r n :
  get_user_by_roll roll db0 = Some (i, r, n) →
  conn_open db0 = true ∧ r = roll.
Proof.
  unfold get_user_by_roll. destruct (conn_open db0); simpl; [|done].
  destruct (filter _ (users db0)) as [|u l] eqn:E; simpl; [done|].
  intros [= <- <- <-]. split; [done|].
  assert (u ∈ filter (λ u, u_roll_number u = roll) (users db0)) as Hin
    by (rewrite E; left).
  by apply list_elem_of_filter in Hin as [? _].
Qed.

(** X22. [generate_user_report] returns [None] for a roll number nobody
    has; for an enrolled user it returns [None] exactly when
    [get_user_attendance_stats] is 0 for that user, and otherwise reports
    as many rows as that total: the user's attendance rows, each once, by
    descending date and time, every row headed by the user's name and roll
    number. *)
Theorem user_report_lists_the_days_counted
    (pf : platform) (timestamp roll export_format : string)
    (db0 : AttendanceDatabase) :
  (get_user_by_roll roll db0 = None →
   generate_user_report pf timestamp roll export_format db0 = None) ∧
  ∀ i r n,
    get_user_by_roll roll db0 = Some (i, r, n) →
    (generate_user_report pf timestamp roll export_format db0 = None ↔
     get_user_attendance_stats i db0 = 0) ∧
    ∀ rep,
      generate_user_report pf timestamp roll export_format db0 = Some rep →
      Z.of_nat (length (body rep)) = get_user_attendance_stats i db0 ∧
      ∃ rows,
        body rep
        = (λ a, [n; roll; a_date a; a_time a; a_status a]) <$> rows ∧
        StronglySorted row_date_desc_time_desc rows ∧
        rows ≡ₚ filter (λ a, a_user_id a = i) (attendance db0).
Proof.
  split.
  { intros H. unfold generate_user_report. by rewrite H. }
  intros i r n Hu.
  destruct (get_user_by_roll_Some _ _ _ _ _ Hu) as [Hc ->].
  unfold generate_user_report, select_user_records, get_user_attendance_stats.
  rewrite Hu, Hc. simpl.
  pose proof (merge_sort_Permutation row_date_desc_time_desc
                (filter (λ a, a_user_id a = i) (attendance db0))) as Hperm.
  pose proof (StronglySorted_merge_sort row_date_desc_time_desc
                (filter (λ a, a_user_id a = i) (attendance db0))) as Hsort.
  destruct (merge_sort row_date_desc_time_desc
              (filter (λ a, a_user_id a = i) (attendance db0)))
    as [|a rows] eqn:E; simpl.
  - apply Permutation_nil_l in Hperm. rewrite <- Hperm. simpl.
    split; [done|]. done.
  - split.
    + split; [done|]. intros H0. exfalso.
      apply Permutation_length in Hperm. simpl in Hperm.
      assert (Z.of_nat (S (length rows)) = 0) as Hx
        by (rewrite Hperm; exact H0).
      lia.
    + intros rep [= <-]. simpl. split.
      * apply Permutation_length in Hperm. simpl in Hperm.
        rewrite ?length_fmap. simpl. rewrite ?length_fmap.
        f_equal. exact Hperm.
      * exists (a :: rows). split; [|done].
        rewrite fmap_cons. f_equal. by rewrite <- list_fmap_compose.
Qed.

Lemma user_report_lists_the_days_counted_witness :
  ∃ rep,
    generate_user_report {| str_lower := id; path_sep := "/" |}
      "20240112_080000" "R100" "csv" recorded_db = Some rep ∧
    Z.of_nat (length (body rep)) = 1.
Proof.
  eexists. split; [reflexivity|].
  exact (proj1 (proj2 (proj2 (user_report_lists_the_days_counted
           {| str_lower := id; path_sep := "/" |}
           "20240112_080000" "R100" "csv" recorded_db)
           1 "R100"%string "Alice"%string eq_refl) _ eq_refl)).
Defined.

(** ** One row per person and day, as the queries show it *)

Lemma unique_keys_users_of_day (d : string) (rows : list attendance_row) :
  (∀ i d', (length (filter (λ r, a_user_id r = i ∧ a_date r = d') rows) ≤ 1)%nat) →
  NoDup (a_user_id <$> filter (λ a, a_date a = d) rows).
Proof.
  induction rows as [|r l IH]; intros Hu; [constructor|].
  assert (NoDup (a_user_id <$> filter (λ a, a_date a = d) l)) as Hl.
  { apply IH. intros i d'. specialize (Hu i d').
    destruct (decide (a_user_id r = i ∧ a_date r = d')).
    - rewrite filter_cons_True in Hu by done. simpl in Hu. lia.
    - by rewrite filter_cons_False in Hu. }
  destruct (decide (a_date r = d)) as [Hd|Hd].
  - rewrite filter_cons_True by done. simpl. constructor; [|done].
    intros (r' & Hi & Hin)%list_elem_of_fmap.
    apply list_elem_of_filter in Hin as [Hd' Hin].
    specialize (Hu (a_user_id r) d).
    rewrite filter_cons_True in Hu by done. simpl in Hu.
    assert (1 ≤ length (filter
                          (λ r0, a_user_id r0 = a_user_id r ∧ a_date r0 = d)
                          l))%nat; [|lia].
    by apply (filter_length_pos _ l r').
  - by rewrite filter_cons_False.
Qed.

Lemma NoDup_fmap_eq {A B} (f : A → B) (l : list A) (x y : A) :
  NoDup (f <$> l) → x ∈ l → y ∈ l → f x = f y → x = y.
Proof.
  induction l as [|z l IH]; simpl; intros Hnd Hx Hy E.
  - by apply elem_of_nil in Hx.
  - apply NoDup_cons in Hnd as [Hz Hnd].
    apply elem_of_cons in Hx as [->|Hx]; apply elem_of_cons in Hy as [->|Hy].
    + done.
    + destruct Hz. rewrite E. apply list_elem_of_fmap. by exists y.
    + destruct Hz. rewrite <- E. apply list_elem_of_fmap. by exists x.
    + by apply IH.
Qed.

Lemma filter_join_by_date (d : string) (us : list user_row)
    (rows : list attendance_row) :
  filter (λ x : attendance_row * user_row, a_date x.1 = d)
    (rows ≫= λ a, filter (λ u, u_id u = a_user_id a) us ≫= λ u, [(a, u)])
  = filter (λ a, a_date a = d) rows ≫=
      λ a, filter (λ u, u_id u = a_user_id a) us ≫= λ u, [(a, u)].
Proof.
  induction rows as [|a rows IH]; [done|].
  rewrite bind_cons, filter_app, IH.
  destruct (decide (a_date a = d)) as [E|N].
  - rewrite filter_cons_True, bind_cons by done. f_equal.
    induction (filter (λ u, u_id u = a_user_id a) us) as [|u l IHl];
      [done|].
    rewrite bind_cons. simpl. rewrite filter_cons_True by done.
    by rewrite IHl.
  - rewrite filter_cons_False by done.
    assert (filter (λ x : attendance_row * user_row, a_date x.1 = d)
              (filter (λ u, u_id u = a_user_id a) us ≫= λ u, [(a, u)])
            = []) as ->; [|done].
    induction (filter (λ u, u_id u = a_user_id a) us) as [|u l IHl];
      [done|].
    rewrite bind_cons. simpl. by rewrite filter_cons_False.
Qed.

Lemma join_rolls_NoDup (us : list user_row) (rows : list attendance_row) :
  NoDup (u_id <$> us) → NoDup (u_roll_number <$> us) →
  NoDup (a_user_id <$> rows) →
  NoDup ((λ x : attendance_row * user_row, u_roll_number x.2) <$>
           (rows ≫= λ a,
              filter (λ u, u_id u = a_user_id a) us ≫= λ u, [(a, u)])).
Proof.
  intros Hid Hroll. induction rows as [|a rows IH]; intros Hrows.
  - constructor.
  - simpl in Hrows. apply NoDup_cons in Hrows as [Ha Hrows].
    rewrite bind_cons, fmap_app. apply NoDup_app. split; [|split].
    + destruct (decide (a_user_id a ∈ u_id <$> us)) as [Hin|Hout].
      * destruct (filter_unique_key u_id us (a_user_id a) Hid Hin) as [u ->].
        simpl. apply NoDup_singleton.
      * rewrite (filter_absent_key u_id us (a_user_id a) Hout). constructor.
    + intros x (p & -> & Hp)%list_elem_of_fmap
               (q & Hq & Hq')%list_elem_of_fmap.
      apply list_elem_of_bind in Hp as (u & Hp & Hu).
      apply list_elem_of_singleton in Hp. subst p.
      apply list_elem_of_filter in Hu as [Hu1 Hu2].
      apply list_elem_of_bind in Hq' as (a' & Hq' & Ha').
      apply list_elem_of_bind in Hq' as (u' & Hq' & Hu').
      apply list_elem_of_singleton in Hq'. subst q.
      apply list_elem_of_filter in Hu' as [Hu1' Hu2'].
      simpl in Hq.
      assert (u = u') by (by apply (NoDup_fmap_eq u_roll_number us)).
      subst u'. destruct Ha. rewrite <- Hu1, Hu1'.
      apply list_elem_of_fmap. by exists a'.
    + by apply IH.
Qed.

(** X23. The list of a day names nobody twice: after any calls on a fresh
    database, the roll numbers in the result of [get_attendance_by_date]
    are pairwise distinct. *)
Theorem daily_list_names_nobody_twice
    (cs : list db_call) (clk : clock) (date : option string) :
  NoDup ((λ r : string * string * string * string, r.1.1.2) <$>
           get_attendance_by_date clk date (run_calls new_database cs)).
Proof.
  pose proof (run_calls_unique cs new_database new_database_unique) as Huk.
  destruct (run_calls_users_unique cs new_database) as (Hroll & Hid & _).
  { repeat split; simpl; constructor. }
  unfold get_attendance_by_date.
  destruct (conn_open (run_calls new_database cs)); simpl; [|constructor].
  rewrite <- list_fmap_compose.
  rewrite (fmap_Permutation _ _ _ (merge_sort_Permutation _ _)).
  unfold attendance_join_users. rewrite filter_join_by_date.
  apply (join_rolls_NoDup (users (run_calls new_database cs))); [done..|].
  apply unique_keys_users_of_day. intros i d'. apply Huk.
Qed.

(** ** The statistics table *)

Lemma sum_totals_Permutation (l l' : list (string * string * Z)) :
  l ≡ₚ l' → sum_totals l = sum_totals l'.
Proof.
  unfold sum_totals.
  induction 1 as [|x l l' _ IH|x y l|l l' l'' _ IH1 _ IH2]; simpl.
  - done.
  - by rewrite IH.
  - lia.
  - by rewrite IH1.
Qed.

Lemma totals_add_up (us : list user_row) (rows : list attendance_row) :
  NoDup (u_id <$> us) →
  Forall (λ a, a_user_id a ∈ u_id <$> us) rows →
  foldr (λ u acc,
           Z.of_nat (length (filter (λ a, a_user_id a = u_id u) rows)) + acc)
        0 us
  = Z.of_nat (length rows).
Proof.
  intros Hnd. induction 1 as [|a rows Ha _ IH].
  - simpl. induction us as [|u us IHus]; simpl; [done|].
    apply NoDup_cons in Hnd as [_ Hnd]. by rewrite IHus.
  - assert (∀ l : list user_row,
              foldr (λ u acc,
                Z.of_nat (length (filter (λ a0, a_user_id a0 = u_id u)
                                    (a :: rows))) + acc) 0 l
              = Z.of_nat (length (filter (λ u, u_id u = a_user_id a) l)) +
                foldr (λ u acc,
                  Z.of_nat (length (filter (λ a0, a_user_id a0 = u_id u)
                                      rows)) + acc) 0 l) as Hsplit.
    { induction l as [|u l IHl]; simpl; [done|]. rewrite IHl.
      destruct (decide (a_user_id a = u_id u)) as [E|N].
      - rewrite (filter_cons_True (λ a0, a_user_id a0 = u_id u)) by done.
        rewrite (filter_cons_True (λ u0, u_id u0 = a_user_id a)) by done.
        simpl length. lia.
      - rewrite (filter_cons_False (λ a0, a_user_id a0 = u_id u)) by done.
        rewrite (filter_cons_False (λ u0, u_id u0 = a_user_id a))
          by (by intros ?).
        lia. }
    rewrite Hsplit, IH.
    destruct (filter_unique_key u_id us (a_user_id a) Hnd Ha) as [u ->].
    simpl length. lia.
Qed.

(** X24. When every attendance row refers to exactly one user, the totals
    in the table of [display_statistics] add up to the number of rows of
    table [attendance]: every record is counted for one user and one
    only. *)
Theorem statistics_totals_add_up
    (db0 : AttendanceDatabase) (rows : list (string * string * Z)) :
  referential_integrity db0 →
  display_statistics db0 = Some rows →
  sum_totals rows = Z.of_nat (length (attendance db0)) ∧
  length rows = length (users db0).
Proof.
  intros [Hnd Hall] Hrows. unfold display_statistics in Hrows.
  assert (conn_open db0 = true) as Hc.
  { destruct (conn_open db0) eqn:Hc; [done|].
    unfold get_all_users in Hrows. by rewrite Hc in Hrows. }
  assert (rows = (λ u, (u.2, u.1.2, get_user_attendance_stats u.1.1 db0))
                   <$> get_all_users db0) as ->.
  { destruct (get_all_users db0); [done|]. by injection Hrows as <-. }
  clear Hrows. unfold get_all_users. rewrite Hc. simpl.
  rewrite <- list_fmap_compose. split.
  - rewrite (sum_totals_Permutation _ _
               (fmap_Permutation _ _ _ (merge_sort_Permutation _ _))).
    rewrite <- (totals_add_up (users db0) (attendance db0) Hnd Hall).
    unfold sum_totals, get_user_attendance_stats. rewrite Hc. simpl.
    clear Hnd Hall.
    induction (users db0) as [|u us IHus]; [done|].
    rewrite fmap_cons. cbn [foldr]. by rewrite IHus.
  - rewrite length_fmap.
    apply Permutation_length, merge_sort_Permutation.
Qed.

Lemma statistics_totals_add_up_witness :
  ∃ rows, display_statistics recorded_db = Some rows ∧ sum_totals rows = 1.
Proof.
  eexists. split; [reflexivity|].
  refine (proj1 (statistics_totals_add_up recorded_db _ _ eq_refl)).
  split.
  - apply (bool_decide_eq_true _). reflexivity.
  - repeat constructor.
Defined.

(** ** Training and the next session *)

Lemma foldl_label_map_is_Some (us : list (Z * string * string))
    (m : gmap Z user_info) (i : Z) :
  is_Some
    (foldl (λ m u, <[u.1.1 := {| roll_number := u.1.2; name := u.2 |}]> m)
       m us !! i) ↔
  i ∈ us.*1.*1 ∨ is_Some (m !! i).
Proof.
  revert m. induction us as [|u us IH]; intros m; simpl.
  - split; [by right|]. intros [Hin|?]; [by apply elem_of_nil in Hin|done].
  - rewrite IH, elem_of_cons.
    destruct (decide (u.1.1 = i)) as [<-|Hne].
    + rewrite lookup_insert_eq. split; [|by intros; right].
      intros _. left. by left.
    + rewrite lookup_insert_ne by done. split.
      * intros [?|?]; [left; by right|by right].
      * intros [[?|?]|?]; [done|by left|by right].
Qed.

Lemma bind_eq_nil {A B : Type} (f : A → list B) (l : list A) :
  l ≫= f = [] ↔ ∀ x, x ∈ l → f x = [].
Proof.
  induction l as [|a l IH].
  - split; [|done]. intros _ x Hx. by apply elem_of_nil in Hx.
  - rewrite bind_cons. split.
    + intros [Ha Hl]%app_eq_nil x [->|Hx]%elem_of_cons; [done|].
      by apply IH.
    + intros H. rewrite (H a) by left. simpl. apply IH.
      intros x Hx. apply H. by right.
Qed.

Lemma train_recognizer_None (readable : string * nat → bool)
    (db0 : AttendanceDatabase) (d : disk) (yml : yml_file) :
  (train_recognizer readable db0 d yml).1 = None ↔
  ∀ u, u ∈ get_all_users db0 → user_dir u.1.2 u.2 ∈ dirs d →
       samples_in readable d (user_dir u.1.2 u.2) = [].
Proof.
  unfold train_recognizer.
  destruct (get_all_users db0) as [|u0 us0] eqn:Hus.
  { split; [|done]. intros _ u Hu. by apply elem_of_nil in Hu. }
  set (with_dir := filter
         (λ u : Z * string * string, user_dir u.1.2 u.2 ∈ dirs d)
         (u0 :: us0)).
  destruct (with_dir ≫= λ u,
              (λ _, u.1.1) <$> samples_in readable d (user_dir u.1.2 u.2))
    as [|l0 ls] eqn:Hl; simpl.
  - split; [|done]. intros _ u Hu Hd.
    eapply fmap_nil_inv, (proj1 (bind_eq_nil _ _) Hl u).
    by apply list_elem_of_filter.
  - split; [done|]. intros H. exfalso.
    assert (with_dir ≫= (λ u,
              (λ _, u.1.1) <$> samples_in readable d (user_dir u.1.2 u.2))
            = []) as Hnil; [|congruence].
    apply bind_eq_nil. intros u [Hd Hu]%list_elem_of_filter.
    by rewrite (H u Hu Hd).
Qed.

Lemma train_recognizer_Some (readable : string * nat → bool)
    (db0 : AttendanceDatabase) (d : disk) (yml : yml_file) (t : training) :
  (train_recognizer readable db0 d yml).1 = Some t →
  (∀ l, l ∈ trained_labels t ↔
        ∃ u, u ∈ get_all_users db0 ∧ u.1.1 = l ∧
             user_dir u.1.2 u.2 ∈ dirs d ∧
             samples_in readable d (user_dir u.1.2 u.2) ≠ []) ∧
  (∀ l, is_Some (trained_label_map t !! l) ↔
        ∃ u, u ∈ get_all_users db0 ∧ u.1.1 = l ∧
             user_dir u.1.2 u.2 ∈ dirs d).
Proof.
  unfold train_recognizer.
  destruct (get_all_users db0) as [|u0 us0] eqn:Hus; [done|].
  set (with_dir := filter
         (λ u : Z * string * string, user_dir u.1.2 u.2 ∈ dirs d)
         (u0 :: us0)).
  destruct (with_dir ≫= λ u,
              (λ _, u.1.1) <$> samples_in readable d (user_dir u.1.2 u.2))
    as [|l0 ls] eqn:Hl; [done|].
  intros [= <-]. simpl. rewrite <- Hl. split; intros l.
  - rewrite list_elem_of_bind. split.
    + intros (u & Hin & [Hd Hu]%list_elem_of_filter).
      apply list_elem_of_fmap in Hin as (f & -> & Hf).
      exists u. split_and!; try done. intros E. rewrite E in Hf.
      by apply elem_of_nil in Hf.
    + intros (u & Hu & <- & Hd & Hne). exists u.
      split; [|by apply list_elem_of_filter].
      destruct (samples_in readable d (user_dir u.1.2 u.2)) as [|f fs];
        [done|]. rewrite fmap_cons. by left.
  - rewrite foldl_label_map_is_Some. split.
    + intros [Hin|Hs]; [|rewrite lookup_empty in Hs; by destruct Hs].
      apply list_elem_of_fmap in Hin as (x & -> & Hin).
      apply list_elem_of_fmap in Hin as (u & -> & Hin).
      apply list_elem_of_filter in Hin as [Hd Hu]. by exists u.
    + intros (u & Hu & <- & Hd). left.
      apply list_elem_of_fmap. exists u.1. split; [done|].
      apply list_elem_of_fmap. exists u. split; [done|].
      by apply list_elem_of_filter.
Qed.

Lemma train_recognizer_resolves (readable : string * nat → bool)
    (db0 : AttendanceDatabase) (d : disk) (yml : yml_file) :
  ((train_recognizer readable db0 d yml).1 = None →
   (train_recognizer readable db0 d yml).2 = yml) ∧
  ∀ t, (train_recognizer readable db0 d yml).1 = Some t →
    (train_recognizer readable db0 d yml).2 = TrainedModel ∧
    trained_labels t ≠ [] ∧
    ∀ l, l ∈ trained_labels t →
      is_Some (trained_label_map t !! l) ∧
      l ∈ u_id <$> users db0 ∧
      ∀ w s, model_file w = TrainedModel → db s = db0 →
             is_Some (label_map (load_recognizer w s).2 !! l).
Proof.
  unfold train_recognizer.
  destruct (get_all_users db0) as [|u0 us0] eqn:Hus; [by split|].
  set (with_dir := filter
         (λ u : Z * string * string, user_dir u.1.2 u.2 ∈ dirs d)
         (u0 :: us0)).
  destruct (with_dir ≫= λ u,
              (λ _, u.1.1) <$> samples_in readable d (user_dir u.1.2 u.2))
    as [|l0 ls] eqn:Hl; [by split|].
  split; [done|]. intros t [= <-]. simpl. split; [done|]. split; [done|].
  intros l Hin. rewrite <- Hl in Hin.
  apply list_elem_of_bind in Hin as (u & Hin & Hu).
  apply list_elem_of_fmap in Hin as (f & -> & _).
  assert (u ∈ get_all_users db0) as Hall.
  { rewrite Hus. by apply list_elem_of_filter in Hu as [_ ?]. }
  assert (conn_open db0 = true) as Hc.
  { destruct (conn_open db0) eqn:Hc; [done|].
    unfold get_all_users in Hus. by rewrite Hc in Hus. }
  split; [|split].
  - apply foldl_label_map_is_Some. left.
    apply list_elem_of_fmap. exists u.1. split; [done|].
    apply list_elem_of_fmap. by exists u.
  - rewrite <- (get_all_users_ids db0 Hc).
    apply list_elem_of_fmap. exists u.1. split; [done|].
    apply list_elem_of_fmap. by exists u.
  - intros w s Hm Hdb. unfold load_recognizer. rewrite Hm. simpl.
    rewrite Hdb. apply foldl_label_map_is_Some. left.
    apply list_elem_of_fmap. exists u.1. split; [done|].
    apply list_elem_of_fmap. by exists u.
Qed.

(** X25. What [train_recognizer] returns and what the next session makes
    of it. It returns [(None, None)] exactly when no listed user has a
    directory with a sample that can be loaded, in particular when no user
    is listed, whatever [face_recognizer.yml] was before, and then leaves
    that file as it was; otherwise it returns a recognizer and writes the
    model file. The labels trained on are the ids of the listed users with
    a directory that holds a loadable sample, the keys of the label map
    returned are the ids of the listed users with a directory, every label
    trained on is such a key and the id of a user, and a session that then
    loads the model over the same database resolves every one of those
    labels, so no such label is turned away as unknown to the directory. *)
Theorem trained_labels_resolve_in_the_next_session
    (readable : string * nat → bool) (db0 : AttendanceDatabase) (d : disk)
    (yml : yml_file) :
  ((train_recognizer readable db0 d yml).1 = None →
   (train_recognizer readable db0 d yml).2 = yml) ∧
  (∀ t, (train_recognizer readable db0 d yml).1 = Some t →
    (train_recognizer readable db0 d yml).2 = TrainedModel ∧
    trained_labels t ≠ [] ∧
    ∀ l, l ∈ trained_labels t →
      is_Some (trained_label_map t !! l) ∧
      l ∈ u_id <$> users db0 ∧
      ∀ w s, model_file w = TrainedModel → db s = db0 →
             is_Some (label_map (load_recognizer w s).2 !! l)) ∧
  ((train_recognizer readable db0 d yml).1 = None ↔
   ∀ u, u ∈ get_all_users db0 → user_dir u.1.2 u.2 ∈ dirs d →
        samples_in readable d (user_dir u.1.2 u.2) = []) ∧
  (get_all_users db0 = [] →
   train_recognizer readable db0 d yml = (None, yml)) ∧
  (is_Some (train_recognizer readable db0 d yml).1 ↔
   ∃ u f, u ∈ get_all_users db0 ∧ user_dir u.1.2 u.2 ∈ dirs d ∧
          f ∈ jpgs d ∧ f.1 = user_dir u.1.2 u.2 ∧ readable f = true) ∧
  (∀ t, (train_recognizer readable db0 d yml).1 = Some t →
     (∀ l, l ∈ trained_labels t ↔
           ∃ u, u ∈ get_all_users db0 ∧ u.1.1 = l ∧
                user_dir u.1.2 u.2 ∈ dirs d ∧
                samples_in readable d (user_dir u.1.2 u.2) ≠ []) ∧
     (∀ l, is_Some (trained_label_map t !! l) ↔
           ∃ u, u ∈ get_all_users db0 ∧ u.1.1 = l ∧
                user_dir u.1.2 u.2 ∈ dirs d)).
Proof.
  destruct (train_recognizer_resolves readable db0 d yml) as [HA HB].
  pose proof (train_recognizer_None readable db0 d yml) as HN.
  split_and!; try done.
  - intros Hus. unfold train_recognizer. by rewrite Hus.
  - split.
    + intros [t Ht]. destruct (HB t Ht) as (_ & Hne & _).
      assert (∃ l, l ∈ trained_labels t) as [l Hl].
      { destruct (trained_labels t) as [|l ls]; [done|]. exists l. left. }
      apply (train_recognizer_Some _ _ _ _ _ Ht) in Hl
        as (u & Hu & _ & Hd & Hs).
      destruct (samples_in readable d (user_dir u.1.2 u.2)) as [|f fs]
        eqn:Es; [done|].
      assert (f ∈ samples_in readable d (user_dir u.1.2 u.2)) as Hf
        by (rewrite Es; left).
      apply list_elem_of_filter in Hf as [[Hf1 Hf2] Hf3].
      apply elem_of_elements in Hf3. by exists u, f.
    + intros (u & f & Hu & Hd & Hf & Hf1 & Hf2).
      apply not_eq_None_Some. rewrite HN. intros Hall.
      assert (f ∈ samples_in readable d (user_dir u.1.2 u.2)) as Hin.
      { apply list_elem_of_filter. split; [done|].
        by apply elem_of_elements. }
      rewrite (Hall u Hu Hd) in Hin. by apply elem_of_nil in Hin.
  - intros t. apply train_recognizer_Some.
Qed.

Lemma trained_labels_resolve_in_the_next_session_witness :
  (train_recognizer (λ _, true) enrolled_db
     {| dirs := {[ "R100_Alice"%string ]};
        jpgs := {[ ("R100_Alice"%string, 0%nat) ]} |} NoFile).2
  = TrainedModel ∧
  (train_recognizer (λ _, true) enrolled_db {| dirs := ∅; jpgs := ∅ |}
     NoFile).2 = NoFile ∧
  train_recognizer (λ _, true) new_database
    {| dirs := {[ "R100_Alice"%string ]};
       jpgs := {[ ("R100_Alice"%string, 0%nat) ]} |} TrainedModel
  = (None, TrainedModel).
Proof.
  split; [|split].
  - eapply (proj1 (proj2 (trained_labels_resolve_in_the_next_session
                     (λ _, true) enrolled_db
                     {| dirs := {[ "R100_Alice"%string ]};
                        jpgs := {[ ("R100_Alice"%string, 0%nat) ]} |}
                     NoFile))).
    vm_compute. reflexivity.
  - exact (proj1 (trained_labels_resolve_in_the_next_session
                    (λ _, true) enrolled_db {| dirs := ∅; jpgs := ∅ |} NoFile)
             eq_refl).
  - exact (proj1 (proj2 (proj2 (proj2
             (trained_labels_resolve_in_the_next_session
                (λ _, true) new_database
                {| dirs := {[ "R100_Alice"%string ]};
                   jpgs := {[ ("R100_Alice"%string, 0%nat) ]} |}
                TrainedModel)))) eq_refl).
Defined.

(** ** The daily report inside the full report *)

Lemma elem_of_daily (clk : clock) (date : option string)
    (db0 : AttendanceDatabase) (r : string * string * string * string) :
  r ∈ get_attendance_by_date clk date db0 →
  conn_open db0 = true ∧
  ∃ x, x ∈ attendance_join_users db0 ∧
       a_date x.1 = default (now_date clk) date ∧ r = daily_tuple x.
Proof.
  unfold get_attendance_by_date.
  destruct (conn_open db0); simpl; [|by intros ?%elem_of_nil].
  intros (x & -> & Hin)%list_elem_of_fmap. split; [done|].
  rewrite merge_sort_Permutation in Hin.
  apply list_elem_of_filter in Hin as [Hd Hin]. by exists x.
Qed.

Lemma elem_of_history (db0 : AttendanceDatabase)
    (x : attendance_row * user_row) :
  conn_open db0 = true → x ∈ attendance_join_users db0 →
  history_tuple x ∈ get_all_attendance_records db0.
Proof.
  intros Hc Hin. unfold get_all_attendance_records. rewrite Hc. simpl.
  apply list_elem_of_fmap. exists x. split; [done|].
  by rewrite merge_sort_Permutation.
Qed.

(** X26. Whenever [generate_daily_report] has something to write,
    [generate_full_report] has too, and every row of the daily report is in
    the full report with the date of the day put in: the two reports never
    disagree about who was present. *)
Theorem daily_report_is_part_of_full_report
    (pf : platform) (clk : clock) (date : option string)
    (timestamp fmt fmt' : string) (db0 : AttendanceDatabase) (rep : report) :
  generate_daily_report pf clk date fmt db0 = Some rep →
  ∃ full,
    generate_full_report pf timestamp fmt' db0 = Some full ∧
    ∀ n r t st,
      [n; r; t; st] ∈ body rep →
      [n; r; default (now_date clk) date; t; st] ∈ body full.
Proof.
  unfold generate_daily_report, generate_full_report.
  destruct (get_attendance_by_date clk (Some (default (now_date clk) date))
              db0) as [|r0 rs] eqn:Hday; [done|].
  intros [= <-]. simpl.
  assert (r0 ∈ get_attendance_by_date clk
                 (Some (default (now_date clk) date)) db0) as Hr0
    by (rewrite Hday; left).
  apply elem_of_daily in Hr0 as (Hc & x0 & Hx0 & _).
  pose proof (elem_of_history db0 x0 Hc Hx0) as Hfull.
  destruct (get_all_attendance_records db0) as [|h hs] eqn:Hall;
    [by apply elem_of_nil in Hfull|].
  eexists. split; [done|]. simpl.
  intros n r t st Hin.
  change ([n; r; t; st] ∈
          (λ r1 : string * string * string * string,
             [r1.1.1.1; r1.1.1.2; r1.1.2; r1.2]) <$> (r0 :: rs)) in Hin.
  apply list_elem_of_fmap in Hin as (q & Hq & Hin).
  rewrite <- Hday in Hin.
  apply elem_of_daily in Hin as (_ & x & Hx & Hd & ->).
  simpl in Hq. injection Hq as -> -> -> ->.
  change ([u_name x.2; u_roll_number x.2; default (now_date clk) date;
           a_time x.1; a_status x.1] ∈
          (λ r1 : string * string * string * string * string,
             [r1.1.1.1.1; r1.1.1.1.2; r1.1.1.2; r1.1.2; r1.2]) <$> (h :: hs)).
  rewrite <- Hall. apply list_elem_of_fmap.
  exists (history_tuple x). split.
  - simpl in Hd. simpl. by rewrite Hd.
  - by apply elem_of_history.
Qed.

Lemma daily_report_is_part_of_full_report_witness :
  ∃ full,
    generate_full_report {| str_lower := id; path_sep := "/" |}
      "20240112_080000" "excel" recorded_db = Some full ∧
    ["Alice"; "R100"; "2024-01-10"; "09:00:00"; "Present"]%string
    ∈ body full.
Proof.
  destruct (daily_report_is_part_of_full_report
              {| str_lower := id; path_sep := "/" |}
              (clock_at "2024-01-12" "08:00:00") (Some "2024-01-10"%string)
              "20240112_080000" "csv" "excel" recorded_db _ eq_refl)
    as (full & Hfull & Hrows).
  exists full. split; [exact Hfull|].
  apply (Hrows "Alice" "R100" "09:00:00" "Present")%string. left.
Defined.
